(** * Calculus Visual Explorer: the expression engine and its numerical calculus

    A shallow embedding of [client/src/lib/mathParser.ts] (classes
    [MathParser] and [ExpressionParser]) and of the calculus layer
    [MathCalculations] built on it.

    - JavaScript numbers are IEEE-754 binary64 values: they are the kernel's
      primitive [float], whose [+ - * /], comparisons and [abs] are the IEEE
      operations.
    - The functions of the [Math] object that ECMAScript leaves
      "implementation-approximated" ([Math.pow], [Math.sqrt], [Math.sin],
      ...) are the fields of a [MathLib] record, over which every definition
      is parameterised.
    - [throw]/[try]/[catch] are an error monad ([result]); the parser object,
      whose only mutable field is the cursor [current], is explicit state
      passing over that cursor.
    - A formula is a [string], each character standing for one code unit
      below 256.
    - The counts [steps] and [n] of the sampling and quadrature loops are
      integers ([Z]); the loop index is turned into a number where the source
      multiplies it by the step. *)

From Stdlib Require Import ZArith Zquot List String Ascii Bool Arith Lia.
From Stdlib Require Import Floats DecimalString.
Import ListNotations.

(** Decimal literals denote the nearest double, as they do in the source. *)
Set Warnings "-inexact-float".

Local Open Scope string_scope.
Local Open Scope nat_scope.

(** ** Errors and results *)

(** One constructor per [throw] site of the source, carrying the data the
    message interpolates.  [OutOfFuel] belongs to the model only: it marks a
    recursion that ran out of its step budget, and is shown never to come out
    of [tokenize] or [evaluate]. *)
Inductive error : Type :=
| InvalidNumberFormat (pos : nat)
| UnknownIdentifier (identifier : string) (pos : nat)
| UnexpectedCharacter (char : ascii) (pos : nat)
| TrailingToken (pos : nat)
| DivisionByZero
| UnexpectedUnaryOperator (operator : string)
| UnknownConstant (constant : string)
| ExpectedLParen (functionName : string)
| ExpectedRParenAfterArgument
| ExpectedRParenAfterExpression
| UnexpectedToken (value : string)
| UnexpectedTokenAt (value : string) (pos : nat)
| LnNonPositive
| LogNonPositive
| SqrtNegative
| UnknownFunction (functionName : string)
| InvalidExpression (expression : string) (cause : error)
| OutOfFuel.

Inductive result (A : Type) : Type :=
| Ok (a : A)
| Err (e : error).
Arguments Ok {A} a.
Arguments Err {A} e.

Definition bind {A B : Type} (r : result A) (k : A -> result B) : result B :=
  match r with
  | Ok a => k a
  | Err e => Err e
  end.

Notation "x <- r ;; k" := (bind r (fun x => k))
  (at level 61, r at next level, right associativity).
Notation "' p <- r ;; k" := (bind r (fun p => k))
  (at level 61, p pattern, r at next level, right associativity).

(** [===] on strings. *)
Infix "==?" := String.eqb (at level 70, no associativity).

Definition is_ok {A : Type} (r : result A) : bool :=
  match r with Ok _ => true | Err _ => false end.

(** The error taxonomy of the engine: lexical, syntactic and domain errors. *)
Inductive error_kind : Type := LexError | ParseError | DomainError | ModelError.

Fixpoint kind_of (e : error) : error_kind :=
  match e with
  | InvalidNumberFormat _ | UnknownIdentifier _ _ | UnexpectedCharacter _ _ =>
      LexError
  | DivisionByZero | LnNonPositive | LogNonPositive | SqrtNegative =>
      DomainError
  | InvalidExpression _ cause => kind_of cause
  | OutOfFuel => ModelError
  | _ => ParseError
  end.

(** ** Tokens *)

Inductive TokenType : Type :=
| NUMBER | VARIABLE | CONSTANT | OPERATOR | FUNCTION | LPAREN | RPAREN | EOF.

Definition TokenType_eqb (a b : TokenType) : bool :=
  match a, b with
  | NUMBER, NUMBER | VARIABLE, VARIABLE | CONSTANT, CONSTANT
  | OPERATOR, OPERATOR | FUNCTION, FUNCTION | LPAREN, LPAREN
  | RPAREN, RPAREN | EOF, EOF => true
  | _, _ => false
  end.

Record token : Type := mkToken { type : TokenType; value : string; pos : nat }.

(** ** Character classes *)

Definition code (c : ascii) : nat := nat_of_ascii c.

(** [/\d/]: the ASCII digits only. *)
Definition isDigit (c : ascii) : bool := (48 <=? code c) && (code c <=? 57).

(** [/[a-zA-Z]/]: no [i] flag, ASCII letters only. *)
Definition isLetter (c : ascii) : bool :=
  ((65 <=? code c) && (code c <=? 90)) || ((97 <=? code c) && (code c <=? 122)).

(** [/\s/] on the code units below 256: TAB, LF, VT, FF, CR, SPACE, NBSP. *)
Definition isSpace (c : ascii) : bool :=
  ((9 <=? code c) && (code c <=? 13)) || (code c =? 32) || (code c =? 160).

Definition isDot (c : ascii) : bool := Ascii.eqb c ".".

(** ** The lexer: [MathParser]'s static sets and its private [tokenize] *)

Module Lexer.

(** [FUNCTIONS], [CONSTANTS] and [OPERATORS], the three static sets. *)
Definition FUNCTIONS : list string :=
  ["sin"; "cos"; "tan"; "ln"; "log"; "sqrt"; "abs"; "exp"].
Definition CONSTANTS : list string := ["e"; "pi"].
Definition OPERATORS : list ascii :=
  ["+"%char; "-"%char; "*"%char; "/"%char; "^"%char].

Definition has (set : list string) (s : string) : bool :=
  existsb (String.eqb s) set.
Definition hasChar (set : list ascii) (c : ascii) : bool :=
  existsb (Ascii.eqb c) set.

(** [expression.replace(/\s+/g, '')] *)
Fixpoint removeWhitespace (s : string) : string :=
  match s with
  | EmptyString => EmptyString
  | String c rest =>
      if isSpace c then removeWhitespace rest
      else String c (removeWhitespace rest)
  end.

(** The inner [while] loops of [tokenize]: the longest prefix of characters
    satisfying [p], and what follows it. *)
Fixpoint takeRun (p : ascii -> bool) (s : string) : string * string :=
  match s with
  | EmptyString => (EmptyString, EmptyString)
  | String c rest =>
      if p c then let (run, s') := takeRun p rest in (String c run, s')
      else (EmptyString, s)
  end.

Definition push (tokens : list token) (t : token) : list token := tokens ++ [t].

(** The outer [while (i < expr.length)] loop.  [s] is [expr] from index [i]
    on; every iteration consumes at least one character, and [fuel] bounds the
    number of iterations. *)
Fixpoint scan (fuel : nat) (s : string) (i : nat) (tokens : list token)
  : result (list token) :=
  match s with
  | EmptyString => Ok tokens
  | String char rest =>
      match fuel with
      | O => Err OutOfFuel
      | S fuel' =>
          if isDigit char || isDot char then
            let (numStr, s') := takeRun (fun c => isDigit c || isDot c) s in
            let i' := i + String.length numStr in
            if String.eqb numStr "." then Err (InvalidNumberFormat i')
            else scan fuel' s' i'
                   (push tokens (mkToken NUMBER numStr (i' - String.length numStr)))
          else if isLetter char then
            let (identifier, s') := takeRun isLetter s in
            let i' := i + String.length identifier in
            let p := i' - String.length identifier in
            if String.eqb identifier "x" then
              scan fuel' s' i' (push tokens (mkToken VARIABLE identifier p))
            else if has FUNCTIONS identifier then
              scan fuel' s' i' (push tokens (mkToken FUNCTION identifier p))
            else if has CONSTANTS identifier then
              scan fuel' s' i' (push tokens (mkToken CONSTANT identifier p))
            else Err (UnknownIdentifier identifier p)
          else if hasChar OPERATORS char then
            scan fuel' rest (S i) (push tokens (mkToken OPERATOR (String char "") i))
          else if Ascii.eqb char "(" then
            scan fuel' rest (S i) (push tokens (mkToken LPAREN (String char "") i))
          else if Ascii.eqb char ")" then
            scan fuel' rest (S i) (push tokens (mkToken RPAREN (String char "") i))
          else Err (UnexpectedCharacter char i)
      end
  end.

Definition tokenize (expression : string) : result (list token) :=
  let expr := removeWhitespace expression in
  tokens <- scan (String.length expr) expr 0 [] ;;
  Ok (push tokens (mkToken EOF "" (String.length expr))).

End Lexer.

(** ** Numbers *)

Local Open Scope Z_scope.

(** The value of a run of decimal digits. *)
Fixpoint digitsValue (s : string) (acc : Z) : Z :=
  match s with
  | EmptyString => acc
  | String c rest => digitsValue rest (10 * acc + (Z.of_nat (code c) - 48))
  end.

(** The double nearest to [m / 10^k] (ties to even), for [0 <= m]. *)
Definition decimalToFloat (m : Z) (k : nat) : float :=
  match m with
  | Zpos p =>
      SF2Prim (SFdiv prec emax (S754_finite false p 0)
                 (S754_finite false (Z.to_pos (10 ^ Z.of_nat k)) 0))
  | _ => PrimFloat.zero
  end.

(** [parseFloat] on the strings a NUMBER token carries (digits and dots):
    the longest prefix of the form [digits], [digits.digits?] or [.digits]
    is converted, what follows it is ignored, and without such a prefix the
    result is NaN. *)
Definition parseFloat (s : string) : float :=
  let (intDigits, s1) := Lexer.takeRun isDigit s in
  let fracDigits :=
    match s1 with
    | String "."%char s2 => fst (Lexer.takeRun isDigit s2)
    | _ => EmptyString
    end in
  match String.length intDigits, String.length fracDigits with
  | O, O => PrimFloat.nan
  | _, k => decimalToFloat (digitsValue (intDigits ++ fracDigits) 0) k
  end.

(** The global [isFinite] on a number: neither NaN nor an infinity. *)
Definition isFinite (y : float) : bool := PrimFloat.is_finite y.

(** [Math.abs] and [Math.min] are exact by the language definition. *)
Definition Math_abs (a : float) : float := PrimFloat.abs a.

Definition Math_min (a b : float) : float :=
  if PrimFloat.is_nan a || PrimFloat.is_nan b then PrimFloat.nan
  else if (a <? b)%float then a
  else if (b <? a)%float then b
  else if PrimFloat.get_sign a then a else b.

(** [Math.E] = 2.718281828459045 and [Math.PI] = 3.141592653589793. *)
Definition Math_E : float := 0x1.5bf0a8b145769p+1%float.
Definition Math_PI : float := 0x1.921fb54442d18p+1%float.

(** An integer count or loop index as a number: the integer itself up to
    2^53, and the nearest double beyond (a loop index stays below 2^53 in any
    run that ends). *)
Definition numberOfZ (z : Z) : float :=
  SF2Prim (binary_normalize prec emax z 0 false).

(** The built-ins the model leaves abstract: the implementation-approximated
    part of the [Math] object, and the shortest-digits printing of numbers. *)
Record MathLib : Type := mkMathLib {
  Math_pow : float -> float -> float;
  Math_sin : float -> float;
  Math_cos : float -> float;
  Math_tan : float -> float;
  Math_log : float -> float;
  Math_log10 : float -> float;
  Math_sqrt : float -> float;
  Math_exp : float -> float;
  (** [Number::toString], which [toFixed] falls back to from 1e21 on. *)
  Number_toString : float -> string
}.

Local Close Scope Z_scope.

(** ** The recursive-descent evaluator *)

Module ExpressionParser.

Section Parser.

Variable M : MathLib.
(** The two immutable fields of the parser object; the third, [current],
    is threaded through every method. *)
Variable tokens : list token.
Variable x : float.

(** [this.tokens[i]].  A stream produced by [tokenize] ends with its only
    EOF token and the cursor never moves past an EOF token, so the default
    is what an index past the stream reads as. *)
Definition tokenAt (i : nat) : token := nth i tokens (mkToken EOF "" i).

Definition getCurrentToken (current : nat) : token := tokenAt current.

Definition isAtEnd (current : nat) : bool :=
  TokenType_eqb (type (getCurrentToken current)) EOF.

(** [advance] moves the cursor; the token it returns is [previous]. *)
Definition advance (current : nat) : nat :=
  if isAtEnd current then current else S current.

Definition previous (current : nat) : token := tokenAt (current - 1).

Definition check (ty : TokenType) (current : nat) : bool :=
  if isAtEnd current then false
  else TokenType_eqb (type (getCurrentToken current)) ty.

(** [match(type)]: every call of the source passes a single type. *)
Definition match_ (ty : TokenType) (current : nat) : bool * nat :=
  if check ty current then (true, advance current) else (false, current).

Definition evaluateFunction (functionName : string) (argument : float)
  : result float :=
  if functionName ==? "sin" then Ok (Math_sin M argument)
  else if functionName ==? "cos" then Ok (Math_cos M argument)
  else if functionName ==? "tan" then Ok (Math_tan M argument)
  else if functionName ==? "ln" then
    if (argument <=? 0)%float then Err LnNonPositive
    else Ok (Math_log M argument)
  else if functionName ==? "log" then
    if (argument <=? 0)%float then Err LogNonPositive
    else Ok (Math_log10 M argument)
  else if functionName ==? "sqrt" then
    if (argument <? 0)%float then Err SqrtNegative
    else Ok (Math_sqrt M argument)
  else if functionName ==? "abs" then Ok (Math_abs argument)
  else if functionName ==? "exp" then Ok (Math_exp M argument)
  else Err (UnknownFunction functionName).

(** The methods, mutually recursive; each call spends one unit of [fuel].
    [additionLoop] and [multiplicationLoop] are the two [while] loops, with
    the accumulator [expr] as an argument. *)
Fixpoint parseExpression (fuel : nat) (current : nat) {struct fuel}
  : result (float * nat) :=
  match fuel with
  | O => Err OutOfFuel
  | S fuel => parseAddition fuel current
  end

with parseAddition (fuel : nat) (current : nat) {struct fuel}
  : result (float * nat) :=
  match fuel with
  | O => Err OutOfFuel
  | S fuel =>
      '(expr, current) <- parseMultiplication fuel current ;;
      additionLoop fuel expr current
  end

with additionLoop (fuel : nat) (expr : float) (current : nat) {struct fuel}
  : result (float * nat) :=
  match fuel with
  | O => Err OutOfFuel
  | S fuel =>
      let (matched, current) := match_ OPERATOR current in
      if matched then
        let operator := value (previous current) in
        if (operator ==? "+") || (operator ==? "-") then
          '(right_, current) <- parseMultiplication fuel current ;;
          additionLoop fuel
            (if operator ==? "+" then (expr + right_)%float
             else (expr - right_)%float)
            current
        else Ok (expr, current - 1)
      else Ok (expr, current)
  end

with parseMultiplication (fuel : nat) (current : nat) {struct fuel}
  : result (float * nat) :=
  match fuel with
  | O => Err OutOfFuel
  | S fuel =>
      '(expr, current) <- parseExponentiation fuel current ;;
      multiplicationLoop fuel expr current
  end

with multiplicationLoop (fuel : nat) (expr : float) (current : nat)
  {struct fuel} : result (float * nat) :=
  match fuel with
  | O => Err OutOfFuel
  | S fuel =>
      let (matched, current) := match_ OPERATOR current in
      if matched then
        let operator := value (previous current) in
        if (operator ==? "*") || (operator ==? "/") then
          '(right_, current) <- parseExponentiation fuel current ;;
          if (operator ==? "/") && (right_ =? 0)%float then Err DivisionByZero
          else
            multiplicationLoop fuel
              (if operator ==? "*" then (expr * right_)%float
               else (expr / right_)%float)
              current
        else Ok (expr, current - 1)
      else Ok (expr, current)
  end

with parseExponentiation (fuel : nat) (current : nat) {struct fuel}
  : result (float * nat) :=
  match fuel with
  | O => Err OutOfFuel
  | S fuel =>
      '(expr, current) <- parseUnary fuel current ;;
      let (matched, current) := match_ OPERATOR current in
      if matched then
        let operator := value (previous current) in
        if operator ==? "^" then
          '(right_, current) <- parseExponentiation fuel current ;;
          Ok (Math_pow M expr right_, current)
        else Ok (expr, current - 1)
      else Ok (expr, current)
  end

with parseUnary (fuel : nat) (current : nat) {struct fuel}
  : result (float * nat) :=
  match fuel with
  | O => Err OutOfFuel
  | S fuel =>
      let (matched, current') := match_ OPERATOR current in
      if matched then
        let operator := value (previous current') in
        if operator ==? "-" then
          '(v, current) <- parseUnary fuel current' ;;
          Ok ((- v)%float, current)
        else if operator ==? "+" then parseUnary fuel current'
        else Err (UnexpectedUnaryOperator operator)
      else parsePrimary fuel current'
  end

with parsePrimary (fuel : nat) (current : nat) {struct fuel}
  : result (float * nat) :=
  match fuel with
  | O => Err OutOfFuel
  | S fuel =>
      let (isNumber, current) := match_ NUMBER current in
      if isNumber then Ok (parseFloat (value (previous current)), current)
      else
      let (isVariable, current) := match_ VARIABLE current in
      if isVariable then Ok (x, current)
      else
      let (isConstant, current) := match_ CONSTANT current in
      if isConstant then
        let constant := value (previous current) in
        if constant ==? "e" then Ok (Math_E, current)
        else if constant ==? "pi" then Ok (Math_PI, current)
        else Err (UnknownConstant constant)
      else
      let (isFunction, current) := match_ FUNCTION current in
      if isFunction then
        let functionName := value (previous current) in
        let (opened, current) := match_ LPAREN current in
        if negb opened then Err (ExpectedLParen functionName)
        else
          '(argument, current) <- parseExpression fuel current ;;
          let (closed, current) := match_ RPAREN current in
          if negb closed then Err ExpectedRParenAfterArgument
          else
            v <- evaluateFunction functionName argument ;;
            Ok (v, current)
      else
      let (opened, current) := match_ LPAREN current in
      if opened then
        '(expr, current) <- parseExpression fuel current ;;
        let (closed, current) := match_ RPAREN current in
        if negb closed then Err ExpectedRParenAfterExpression
        else Ok (expr, current)
      else if check NUMBER current || check VARIABLE current then
        Err (UnexpectedToken (value (getCurrentToken current)))
      else
        Err (UnexpectedTokenAt (value (getCurrentToken current))
               (pos (getCurrentToken current)))
  end.

End Parser.

(** A step budget that every token stream stays within: eight nested calls
    lead from [parseExpression] to [parsePrimary], and a token is consumed
    before the chain is entered again. *)
Definition budget (tokens : list token) : nat := 8 * List.length tokens + 8.

End ExpressionParser.

Module MathParser.

(** [MathParser.evaluate]: every failure of the lexer or the parser is caught
    and rethrown with the formula. *)
Definition evaluate (M : MathLib) (expression : string) (x : float)
  : result float :=
  match
    (tokens <- Lexer.tokenize expression ;;
     '(result, current) <-
        ExpressionParser.parseExpression M tokens x
          (ExpressionParser.budget tokens) 0 ;;
     if negb (ExpressionParser.isAtEnd tokens current) then
       Err (TrailingToken (pos (ExpressionParser.getCurrentToken tokens current)))
     else Ok result)
  with
  | Ok result => Ok result
  | Err e => Err (InvalidExpression expression e)
  end.

Definition point : Type := (float * float)%type.

(** The body of [generatePoints]'s [for] loop, run [k] times from index [i]
    on; [points] is the array being filled. *)
Fixpoint generatePointsLoop (M : MathLib) (expression : string)
  (xMin stepSize : float) (k : nat) (i : Z) (points : list point)
  : list point :=
  match k with
  | O => points
  | S k =>
      let x := (xMin + numberOfZ i * stepSize)%float in
      let points :=
        match evaluate M expression x with
        | Ok y => if isFinite y then (points ++ [(x, y)])%list else points
        | Err _ => points
        end in
      generatePointsLoop M expression xMin stepSize k (i + 1)%Z points
  end.

(** [steps] is a count: [i] runs over the integers [0 .. steps]. *)
Definition generatePoints (M : MathLib) (expression : string)
  (xMin xMax : float) (steps : Z) : list point :=
  let stepSize := ((xMax - xMin) / numberOfZ steps)%float in
  generatePointsLoop M expression xMin stepSize (Z.to_nat (steps + 1)) 0%Z [].

(** The default of [steps]. *)
Definition generatePoints_default_steps : Z := 1000%Z.

Definition isValidExpression (M : MathLib) (expression : string) : bool :=
  is_ok (evaluate M expression 1%float).

(** [getPresetFunctions]; the display texts are kept as UTF-8. *)
Record preset : Type :=
  mkPreset { expression : string; name : string; description : string }.

Definition getPresetFunctions : list preset :=
  [mkPreset "x^2 + 2*x - 1" "Quadratic" "x² + 2x - 1";
   mkPreset "sin(x)" "Sine" "sin(x)";
   mkPreset "cos(x)" "Cosine" "cos(x)";
   mkPreset "Math.exp(x)" "Exponential" "eˣ";
   mkPreset "ln(x)" "Natural Log" "ln(x)";
   mkPreset "x^3 - 3*x^2 + 2*x" "Cubic" "x³ - 3x² + 2x";
   mkPreset "1/x" "Reciprocal" "1/x";
   mkPreset "sqrt(x)" "Square Root" "√x"].

End MathParser.

(** A [Math] library for running examples: powers with an integral exponent
    by repeated multiplication (exact as long as the products are), the IEEE
    square root, and the transcendental functions left at NaN: the formulas
    evaluated with it do not call them.  [Number_toString] is only consulted by
    [toFixed] from 1e21 on. *)
Module Sample.

Fixpoint powNat (b : float) (n : nat) : float :=
  match n with
  | O => 1%float
  | S n => (b * powNat b n)%float
  end.

(** The integer a number is equal to, when it is one. *)
Definition integerValue (y : float) : option Z :=
  match Prim2SF y with
  | S754_zero _ => Some 0%Z
  | S754_finite s m e =>
      let sign := if s then (-1)%Z else 1%Z in
      if (0 <=? e)%Z then Some (sign * (Zpos m * 2 ^ e))%Z
      else if (Zpos m mod 2 ^ (- e) =? 0)%Z then
        Some (sign * (Zpos m / 2 ^ (- e)))%Z
      else None
  | _ => None
  end.

Definition pow (b y : float) : float :=
  match integerValue y with
  | Some (Zpos p) => powNat b (Pos.to_nat p)
  | Some Z0 => 1%float
  | Some (Zneg p) => (1 / powNat b (Pos.to_nat p))%float
  | None => PrimFloat.nan
  end.

Definition math : MathLib :=
  {| Math_pow := pow;
     Math_sin := fun _ => PrimFloat.nan;
     Math_cos := fun _ => PrimFloat.nan;
     Math_tan := fun _ => PrimFloat.nan;
     Math_log := fun _ => PrimFloat.nan;
     Math_log10 := fun _ => PrimFloat.nan;
     Math_sqrt := PrimFloat.sqrt;
     Math_exp := fun _ => PrimFloat.nan;
     Number_toString := fun _ => "1e+21" |}.

End Sample.

(** ** [Number.prototype.toFixed(2)] *)

(** The integer [n] for which [n / 100] is closest to the finite number
    [0 <= a], the larger one on a tie. *)
Definition hundredths (a : float) : Z :=
  match Prim2SF a with
  | S754_finite _ m e =>
      if (0 <=? e)%Z then (Zpos m * 2 ^ e * 100)%Z
      else ((200 * Zpos m + 2 ^ (- e)) / 2 ^ (1 - e))%Z
  | _ => 0%Z
  end.

Definition decimalDigits (n : Z) : string :=
  NilZero.string_of_uint (N.to_uint (Z.to_N n)).

Fixpoint padZeros (k : nat) (m : string) : string :=
  match k with
  | O => m
  | S k => if String.length m <=? 2 then padZeros k (String "0" m) else m
  end.

Definition toFixed2 (M : MathLib) (v : float) : string :=
  if PrimFloat.is_nan v then "NaN"
  else if PrimFloat.is_infinity v then
    if (v <? 0)%float then "-Infinity" else "Infinity"
  else
    let s := if (v <? 0)%float then "-" else "" in
    let a := if (v <? 0)%float then (- v)%float else v in
    if (1e21 <=? a)%float then s ++ Number_toString M a
    else
      let m := padZeros 2 (decimalDigits (hundredths a)) in
      let k := String.length m in
      s ++ substring 0 (k - 2) m ++ "." ++ substring (k - 2) 2 m.

(** ** The calculus layer *)

Module MathCalculations.

Import MathParser.

Record CalculationResult : Type :=
  mkResult { value : float; error : option string }.

(** The default [h = 0.0001] of [calculateDerivative]. *)
Definition default_h : float := 0x1.a36e2eb1c432dp-14%float.

(** The [try] block computes in [result]; the [catch] turns every failure
    into the sentinel. *)
Definition calculateDerivative (M : MathLib) (expression : string)
  (x h : float) : CalculationResult :=
  match
    (f_x_plus_h <- evaluate M expression (x + h)%float ;;
     f_x <- evaluate M expression x ;;
     Ok ((f_x_plus_h - f_x) / h)%float)
  with
  | Ok derivative => mkResult derivative None
  | Err _ => mkResult 0%float (Some "Unable to calculate derivative")
  end.

Fixpoint derivativePointsLoop (M : MathLib) (expression : string)
  (xMin stepSize : float) (k : nat) (i : Z) (points : list point)
  : list point :=
  match k with
  | O => points
  | S k =>
      let x := (xMin + numberOfZ i * stepSize)%float in
      let result := calculateDerivative M expression x default_h in
      let points :=
        match error result with
        | None =>
            if isFinite (value result) then (points ++ [(x, value result)])%list
            else points
        | Some _ => points
        end in
      derivativePointsLoop M expression xMin stepSize k (i + 1)%Z points
  end.

Definition calculateDerivativePoints (M : MathLib) (expression : string)
  (xMin xMax : float) (steps : Z) : list point :=
  let stepSize := ((xMax - xMin) / numberOfZ steps)%float in
  derivativePointsLoop M expression xMin stepSize (Z.to_nat (steps + 1)) 0%Z [].

(** The defaults of [steps] in [calculateDerivativePoints] and of [n] in
    [calculateDefiniteIntegral]. *)
Definition calculateDerivativePoints_default_steps : Z := 500%Z.
Definition calculateDefiniteIntegral_default_n : Z := 1000%Z.

(** The [for (let i = 1; i < n; i++)] loop of Simpson's rule, run [k] times
    from index [i] on, inside the [try] block. *)
Fixpoint simpsonLoop (M : MathLib) (expression : string) (a h : float)
  (k : nat) (i : Z) (sum : float) : result float :=
  match k with
  | O => Ok sum
  | S k =>
      let x := (a + numberOfZ i * h)%float in
      let coefficient := if (Z.rem i 2 =? 0)%Z then 2%float else 4%float in
      fx <- evaluate M expression x ;;
      simpsonLoop M expression a h k (i + 1)%Z (sum + coefficient * fx)%float
  end.

(** [n] is a count of subintervals, an integer; [%] is the remainder that
    takes the sign of the dividend, [Z.rem]. *)
Definition calculateDefiniteIntegral (M : MathLib) (expression : string)
  (a b : float) (n : Z) : CalculationResult :=
  match
    (let n := if negb (Z.rem n 2 =? 0)%Z then (n + 1)%Z else n in
     let h := ((b - a) / numberOfZ n)%float in
     fa <- evaluate M expression a ;;
     fb <- evaluate M expression b ;;
     sum <- simpsonLoop M expression a h (Z.to_nat (n - 1)) 1%Z (fa + fb)%float ;;
     Ok ((h / 3) * sum)%float)
  with
  | Ok integral => mkResult integral None
  | Err _ => mkResult 0%float (Some "Unable to calculate integral")
  end.

Record rectangle : Type :=
  mkRectangle { rect_x : float; rect_y : float; width : float; height : float }.

Record riemannSum : Type :=
  mkRiemann { sumValue : float; rectangles : list rectangle }.

Fixpoint riemannLoop (M : MathLib) (expression : string) (a dx : float)
  (k : nat) (i : Z) (sum : float) (rects : list rectangle) : riemannSum :=
  match k with
  | O => mkRiemann sum rects
  | S k =>
      let x := (a + numberOfZ i * dx)%float in
      match evaluate M expression (x + dx / 2)%float with
      | Ok height =>
          riemannLoop M expression a dx k (i + 1)%Z (sum + height * dx)%float
            (rects ++ [mkRectangle x (Math_min 0 height) dx (Math_abs height)])%list
      | Err _ => riemannLoop M expression a dx k (i + 1)%Z sum rects
      end
  end.

Definition calculateRiemannSum (M : MathLib) (expression : string)
  (a b : float) (n : Z) : riemannSum :=
  let dx := ((b - a) / numberOfZ n)%float in
  riemannLoop M expression a dx (Z.to_nat n) 0%Z 0%float [].

Record limitResult : Type := mkLimit {
  leftLimit : option float;
  rightLimit : option float;
  limit : option float;
  exists_ : bool
}.

Definition steps : list float := [0.1%float; 0.01%float; 0.001%float; 0.0001%float].

Definition default_epsilon : float := 0.001%float.

(** One iteration of the [for (const step of steps)] loop: both evaluations
    share one [try] block, whose [catch] leaves the two arrays as they
    were. *)
Definition limitStep (M : MathLib) (expression : string) (a : float)
  (acc : list float * list float) (step : float) : list float * list float :=
  let (leftValues, rightValues) := acc in
  match
    (leftVal <- evaluate M expression (a - step)%float ;;
     rightVal <- evaluate M expression (a + step)%float ;;
     Ok (leftVal, rightVal))
  with
  | Ok (leftVal, rightVal) =>
      ((if isFinite leftVal then leftValues ++ [leftVal] else leftValues)%list,
       (if isFinite rightVal then rightValues ++ [rightVal] else rightValues)%list)
  | Err _ => (leftValues, rightValues)
  end.

(** [values.length > 0 ? values[values.length - 1] : null] *)
Definition lastOrNull (values : list float) : option float :=
  match values with
  | [] => None
  | v :: _ => Some (List.last values v)
  end.

(** Nothing in the outer [try] block can throw once the inner [catch] has
    run, so the outer [catch] has no counterpart. *)
Definition calculateLimit (M : MathLib) (expression : string)
  (a epsilon : float) : limitResult :=
  let (leftValues, rightValues) :=
    fold_left (limitStep M expression a) steps ([], []) in
  let leftLimit := lastOrNull leftValues in
  let rightLimit := lastOrNull rightValues in
  match leftLimit, rightLimit with
  | Some l, Some r =>
      if (Math_abs (l - r) <? epsilon)%float then
        mkLimit leftLimit rightLimit (Some ((l + r) / 2)%float) true
      else mkLimit leftLimit rightLimit None false
  | Some l, None => mkLimit leftLimit rightLimit (Some l) false
  | None, Some r => mkLimit leftLimit rightLimit (Some r) false
  | None, None => mkLimit leftLimit rightLimit None false
  end.

Record tangentLine : Type := mkTangent {
  slope : float;
  yIntercept : float;
  equation : string;
  point_ : float * float
}.

Definition calculateTangentLine (M : MathLib) (expression : string)
  (x0 : float) : tangentLine :=
  match evaluate M expression x0 with
  | Ok y0 =>
      let slope := value (calculateDerivative M expression x0 default_h) in
      let yIntercept := (y0 - slope * x0)%float in
      let equation :=
        if (slope =? 0)%float then "y = " ++ toFixed2 M y0
        else if (slope =? 1)%float then
          if (0 <=? yIntercept)%float then "y = x + " ++ toFixed2 M yIntercept
          else "y = x - " ++ toFixed2 M (Math_abs yIntercept)
        else if (slope =? -1)%float then
          if (0 <=? yIntercept)%float then "y = -x + " ++ toFixed2 M yIntercept
          else "y = -x - " ++ toFixed2 M (Math_abs yIntercept)
        else
          let slopeStr := toFixed2 M slope in
          if (0 <=? yIntercept)%float then
            "y = " ++ slopeStr ++ "x + " ++ toFixed2 M yIntercept
          else "y = " ++ slopeStr ++ "x - " ++ toFixed2 M (Math_abs yIntercept)
      in
      mkTangent slope yIntercept equation (x0, y0)
  | Err _ => mkTangent 0%float 0%float "y = 0" (x0, 0%float)
  end.

Record normalLine : Type := mkNormal {
  normalSlope : float;
  normalIntercept : float;
  normalEquation : string
}.

Definition calculateNormalLine (M : MathLib) (expression : string)
  (x0 : float) : normalLine :=
  let tangent := calculateTangentLine M expression x0 in
  let normalSlope :=
    if (slope tangent =? 0)%float then PrimFloat.infinity
    else (-1 / slope tangent)%float in
  match evaluate M expression x0 with
  | Ok y0 =>
      if negb (isFinite normalSlope) then
        mkNormal normalSlope 0%float ("x = " ++ toFixed2 M x0)
      else
        let yIntercept := (y0 - normalSlope * x0)%float in
        let equation :=
          if (0 <=? yIntercept)%float then
            "y = " ++ toFixed2 M normalSlope ++ "x + " ++ toFixed2 M yIntercept
          else
            "y = " ++ toFixed2 M normalSlope ++ "x - "
              ++ toFixed2 M (Math_abs yIntercept) in
        mkNormal normalSlope yIntercept equation
  | Err _ => mkNormal 0%float 0%float "y = 0"
  end.

End MathCalculations.

(** * The vocabulary of the statements *)

Module Spec.

Import MathParser MathCalculations.

(** The number of tokens from the cursor to the end of the stream. *)
Definition remaining (tokens : list token) (current : nat) : nat :=
  List.length tokens - current.

(** What a method may end with when its budget suffices: a value and a
    cursor that did not move back, or an error of the source. *)
Definition completes (current : nat) (r : result (float * nat)) : Prop :=
  match r with
  | Ok (_, current') => current <= current'
  | Err e => e <> OutOfFuel
  end.

(** A result that is not the exhaustion of the budget. *)
Definition settled (r : result (float * nat)) : Prop := r <> Err OutOfFuel.

(** The operands a power can be built from without parentheses. *)
Inductive operand : Type :=
| Literal (digits : string)
| TheVariable
| ConstantE
| ConstantPi.

Definition operandToken (o : operand) (p : nat) : token :=
  match o with
  | Literal digits => mkToken NUMBER digits p
  | TheVariable => mkToken VARIABLE "x" p
  | ConstantE => mkToken CONSTANT "e" p
  | ConstantPi => mkToken CONSTANT "pi" p
  end.

Definition operandValue (x : float) (o : operand) : float :=
  match o with
  | Literal digits => parseFloat digits
  | TheVariable => x
  | ConstantE => Math_E
  | ConstantPi => Math_PI
  end.

(** The token stream of [a^b^c]. *)
Definition powerTower (a b c : operand) : list token :=
  [operandToken a 0; mkToken OPERATOR "^" 1; operandToken b 2;
   mkToken OPERATOR "^" 3; operandToken c 4; mkToken EOF "" 5].

(** The tokens of [1/x]. *)
Definition one_over_x : list token :=
  [mkToken NUMBER "1" 0; mkToken OPERATOR "/" 1; mkToken VARIABLE "x" 2;
   mkToken EOF "" 3].

Local Open Scope Z_scope.

(** The [k] consecutive integers from [i] on: the indices a counted [for]
    loop runs over. *)
Fixpoint countFrom (i : Z) (k : nat) : list Z :=
  match k with
  | O => []
  | S k => i :: countFrom (i + 1) k
  end.

(** The rule as it is usually written: an even number [n'] of subintervals of
    width [h], weight 4 at the odd interior points and 2 at the even ones.
    [f i] is the value at the interior point of index [i]; the sum is taken
    from the two endpoints on, by increasing index. *)
Definition evenCount (n : Z) : Z := if Z.odd n then n + 1 else n.

Definition weight (i : Z) : float := if Z.odd i then 4%float else 2%float.

Definition interior (n' : Z) : list Z := countFrom 1 (Z.to_nat (n' - 1)).

Definition weightedSum (f : Z -> float) (fa fb : float) (n' : Z) : float :=
  fold_left (fun sum i => (sum + weight i * f i)%float) (interior n') (fa + fb)%float.

Local Close Scope Z_scope.

(** What the loop over [steps] keeps: the pairs of values of the steps at
    which both evaluations succeed, in the order of the steps. *)
Definition jointValues (M : MathLib) (expression : string) (a : float)
  (ss : list float) : list (float * float) :=
  flat_map
    (fun step =>
       match evaluate M expression (a - step)%float,
             evaluate M expression (a + step)%float with
       | Ok leftVal, Ok rightVal => [(leftVal, rightVal)]
       | _, _ => []
       end) ss.

(** What one side would keep if its attempts did not depend on the other
    side's: the finite values among its own successful evaluations. *)
Definition sideValues (M : MathLib) (expression : string)
  (approach : float -> float) (ss : list float) : list float :=
  flat_map
    (fun step =>
       match evaluate M expression (approach step) with
       | Ok v => if isFinite v then [v] else []
       | Err _ => []
       end) ss.

(** A formula with a value on the right of 0 only: on the left the product
    of an overflowed power and zero is NaN, and so is its reciprocal. *)
Definition rightOnly : string := "1/(10^400*(x+abs(x)))".

(** What the sampler keeps of the point of index [i]: the sample, when the
    evaluation succeeds with a finite value, and nothing otherwise. *)
Definition sampleAt (M : MathLib) (expression : string) (xMin stepSize : float)
  (i : Z) : list point :=
  let x := (xMin + numberOfZ i * stepSize)%float in
  match evaluate M expression x with
  | Ok y => if isFinite y then [(x, y)] else []
  | Err _ => []
  end.

(** Consecutive entries strictly increase. *)
Fixpoint ascending (xs : list float) : bool :=
  match xs with
  | x1 :: ((x2 :: _) as rest) => (x1 <? x2)%float && ascending rest
  | _ => true
  end.

(** A one-sided limit, when there is one, is finite. *)
Definition finiteOrNull (o : option float) : bool :=
  match o with
  | Some v => isFinite v
  | None => true
  end.

(** The lines returned when the formula has no value at [x0]. *)
Definition tangentSentinel (x0 : float) : tangentLine :=
  mkTangent 0%float 0%float "y = 0" (x0, 0%float).

Definition normalSentinel : normalLine := mkNormal 0%float 0%float "y = 0".

(** The characters of a number run, and strings made of them. *)
Definition isNumberChar (c : ascii) : bool := isDigit c || isDot c.

Fixpoint allChars (p : ascii -> bool) (s : string) : bool :=
  match s with
  | EmptyString => true
  | String c rest => p c && allChars p rest
  end.

(** What [calculateDerivativePoints] keeps of the point of index [i]. *)
Definition derivativeSampleAt (M : MathLib) (expression : string)
  (xMin stepSize : float) (i : Z) : list point :=
  let x := (xMin + numberOfZ i * stepSize)%float in
  let result := calculateDerivative M expression x default_h in
  match error result with
  | None => if isFinite (value result) then [(x, value result)] else []
  | Some _ => []
  end.

(** The subintervals of the midpoint rule whose midpoint has a value: the
    left end of each and the value at its midpoint, by increasing index. *)
Definition midpointValues (M : MathLib) (expression : string) (a dx : float)
  (indices : list Z) : list (float * float) :=
  flat_map
    (fun i =>
       let x := (a + numberOfZ i * dx)%float in
       match evaluate M expression (x + dx / 2)%float with
       | Ok height => [(x, height)]
       | Err _ => []
       end) indices.

Definition rectangleOf (dx : float) (xh : float * float) : rectangle :=
  mkRectangle (fst xh) (Math_min 0 (snd xh)) dx (Math_abs (snd xh)).

(** The results that stand for "no result". *)
Definition derivativeSentinel : CalculationResult :=
  mkResult 0%float (Some "Unable to calculate derivative").

Definition integralSentinel : CalculationResult :=
  mkResult 0%float (Some "Unable to calculate integral").

Definition noLimit : limitResult := mkLimit None None None false.

(** The two sides are present and closer than [epsilon]. *)
Definition sidesAgree (r : limitResult) (epsilon : float) : bool :=
  match leftLimit r, rightLimit r with
  | Some l, Some r' => (Math_abs (l - r') <? epsilon)%float
  | _, _ => false
  end.

Definition bothSides (r : limitResult) : bool :=
  match leftLimit r, rightLimit r with
  | Some _, Some _ => true
  | _, _ => false
  end.

Definition isNull (o : option float) : bool :=
  match o with
  | Some _ => false
  | None => true
  end.

(** Token streams built from operands and operators, and what the evaluator
    makes of a stream: the value of the expression, the whole stream being
    consumed. *)
Definition operatorToken (operator : string) (p : nat) : token :=
  mkToken OPERATOR operator p.

Definition infix3 (a : operand) (op1 : string) (b : operand) (op2 : string)
  (c : operand) : list token :=
  [operandToken a 0; operatorToken op1 1; operandToken b 2;
   operatorToken op2 3; operandToken c 4; mkToken EOF "" 5].

Definition prefixed (op0 : string) (a : operand) (op1 : string) (b : operand)
  : list token :=
  [operatorToken op0 0; operandToken a 1; operatorToken op1 2;
   operandToken b 3; mkToken EOF "" 4].

Definition signedRight (a : operand) (op1 op2 : string) (b : operand)
  : list token :=
  [operandToken a 0; operatorToken op1 1; operatorToken op2 2;
   operandToken b 3; mkToken EOF "" 4].

Definition streamValue (M : MathLib) (tokens : list token) (x : float)
  : result float :=
  '(result, current) <-
     ExpressionParser.parseExpression M tokens x
       (ExpressionParser.budget tokens) 0 ;;
  if negb (ExpressionParser.isAtEnd tokens current) then
    Err (TrailingToken (pos (ExpressionParser.getCurrentToken tokens current)))
  else Ok result.

(** A quotient, or the failure of a division by zero. *)
Definition quotient (a b : float) : result float :=
  if (b =? 0)%float then Err DivisionByZero else Ok (a / b)%float.

End Spec.

(** * The vocabulary of the statements about tokens *)

Module TokenSpec.

Import Lexer MathParser.
(** The text a token stream spells: the values of its tokens, one after the
    other. *)
Fixpoint spelling (tokens : list token) : string :=
  match tokens with
  | [] => EmptyString
  | t :: rest => value t ++ spelling rest
  end.

(** Every token stands at the offset the tokens before it fill, from [i]
    on. *)
Fixpoint laidOut (i : nat) (tokens : list token) : Prop :=
  match tokens with
  | [] => True
  | t :: rest => pos t = i /\ laidOut (i + String.length (value t)) rest
  end.

Definition notEOF (t : token) : bool := negb (TokenType_eqb (type t) EOF).

(** What [evaluate] ends with, the formula taken off a failure. *)
Definition outcome (r : result float) : result float :=
  match r with
  | Err (InvalidExpression _ cause) => Err cause
  | _ => r
  end.

(** A run of letters stops here: at the end of the text or at a character
    that is not a letter. *)
Definition stopsLetters (s : string) : bool :=
  match s with
  | EmptyString => true
  | String c _ => negb (isLetter c)
  end.

(** The values the classifying branches of the lexer give their tokens. *)
Definition wellTyped (t : token) : bool :=
  match type t with
  | FUNCTION => has FUNCTIONS (value t)
  | CONSTANT => has CONSTANTS (value t)
  | OPERATOR => has ["+"; "-"; "*"; "/"; "^"] (value t)
  | _ => true
  end.

(** The errors of the defensive branches: the [default] cases of the two
    [switch] statements, the implicit-multiplication test of [parsePrimary],
    and a unary operator other than the three binary-only ones. *)
Definition defensive (e : error) : bool :=
  match e with
  | UnknownFunction _ | UnknownConstant _ | UnexpectedToken _ => true
  | UnexpectedUnaryOperator operator => negb (has ["*"; "/"; "^"] operator)
  | _ => false
  end.

Definition neverDefensive {A : Type} (r : result A) : Prop :=
  match r with
  | Ok _ => True
  | Err e => defensive e = false
  end.

(** A formula without the variable: no token of its stream is the VARIABLE
    (a formula that has no stream is one too). *)
Definition notVariable (t : token) : bool :=
  negb (TokenType_eqb (type t) VARIABLE).

Definition mentionsNoVariable (expression : string) : bool :=
  match tokenize expression with
  | Ok tokens => forallb notVariable tokens
  | Err _ => true
  end.

(** The cursor a method leaves is an index of the stream. *)
Definition inRange (tokens : list token) (r : result (float * nat)) : Prop :=
  match r with
  | Ok (_, current) => current < List.length tokens
  | Err _ => True
  end.

End TokenSpec.

(** * Termination: the step budgets are never exhausted *)

Module LexerFacts.

Import Lexer.

Lemma takeRun_length (p : ascii -> bool) (s : string) :
  String.length s
  = String.length (fst (takeRun p s)) + String.length (snd (takeRun p s)).
Proof.
  induction s as [|c rest IH]; simpl; [reflexivity|].
  destruct (p c); simpl; [|reflexivity].
  destruct (takeRun p rest) as [run s']; simpl in *; lia.
Qed.

Lemma takeRun_nonempty (p : ascii -> bool) (c : ascii) (rest : string) :
  p c = true ->
  String.length (snd (takeRun p (String c rest))) <= String.length rest.
Proof.
  intros Hc. pose proof (takeRun_length p rest) as Hlen.
  simpl. rewrite Hc. destruct (takeRun p rest) as [run s']; simpl in *; lia.
Qed.

(** With one unit of fuel per character the scanning loop runs to its end or
    to one of its own errors. *)
Lemma scan_fuel (fuel : nat) :
  forall (s : string) (i : nat) (tokens : list token),
    String.length s <= fuel -> scan fuel s i tokens <> Err OutOfFuel.
Proof.
  induction fuel as [|fuel IH]; intros s i tokens Hlen.
  - destruct s; simpl in *; [discriminate | lia].
  - destruct s as [|char rest]; [discriminate|].
    cbn [scan].
    destruct (isDigit char || isDot char) eqn:Hnum.
    { pose proof (takeRun_nonempty (fun c => isDigit c || isDot c) char rest Hnum).
      destruct (takeRun _ (String char rest)) as [numStr s'].
      cbn [snd] in *. destruct (numStr ==? "."); [discriminate|].
      apply IH. cbn [String.length] in Hlen. lia. }
    destruct (isLetter char) eqn:Hlet.
    { pose proof (takeRun_nonempty isLetter char rest Hlet).
      destruct (takeRun isLetter (String char rest)) as [identifier s'].
      cbn [snd] in *. cbn [String.length] in Hlen.
      repeat match goal with
             | |- (if ?b then _ else _) <> _ => destruct b
             end; try discriminate; apply IH; lia. }
    cbn [String.length] in Hlen.
    repeat match goal with
           | |- (if ?b then _ else _) <> _ => destruct b
           end; try discriminate; apply IH; lia.
Qed.

Lemma tokenize_ends_with_EOF (expression : string) (tokens : list token) :
  tokenize expression = Ok tokens ->
  exists (front : list token) (p : nat),
    tokens = (front ++ [mkToken EOF "" p])%list.
Proof.
  unfold tokenize. destruct (scan _ _ _ _) as [front|e]; cbn [bind];
    [|discriminate].
  intros H. injection H as <-. eexists; eexists; reflexivity.
Qed.

Lemma tokenize_fuel (expression : string) :
  tokenize expression <> Err OutOfFuel.
Proof.
  unfold tokenize.
  pose proof (scan_fuel (String.length (removeWhitespace expression))
                (removeWhitespace expression) 0 [] (le_n _)) as H.
  destruct (scan _ _ _ _) as [tokens|e]; simpl; congruence.
Qed.

End LexerFacts.

Module ParserFacts.

Import ExpressionParser Spec.

Section Methods.

Variable M : MathLib.
Variable tokens : list token.
Variable x : float.

(** The methods unfold by one call when there is fuel for it. *)
Lemma parseExpression_S (fuel current : nat) :
  parseExpression M tokens x (S fuel) current
  = parseAddition M tokens x fuel current.
Proof. reflexivity. Qed.

Lemma parseAddition_S (fuel current : nat) :
  parseAddition M tokens x (S fuel) current
  = '(expr, current) <- parseMultiplication M tokens x fuel current ;;
    additionLoop M tokens x fuel expr current.
Proof. reflexivity. Qed.

Lemma parseMultiplication_S (fuel current : nat) :
  parseMultiplication M tokens x (S fuel) current
  = '(expr, current) <- parseExponentiation M tokens x fuel current ;;
    multiplicationLoop M tokens x fuel expr current.
Proof. reflexivity. Qed.

Lemma multiplicationLoop_S (fuel : nat) (expr : float) (current : nat) :
  multiplicationLoop M tokens x (S fuel) expr current
  = let (matched, current) := match_ tokens OPERATOR current in
    if matched then
      let operator := value (previous tokens current) in
      if (operator ==? "*") || (operator ==? "/") then
        '(right_, current) <- parseExponentiation M tokens x fuel current ;;
        if (operator ==? "/") && (right_ =? 0)%float then Err DivisionByZero
        else
          multiplicationLoop M tokens x fuel
            (if operator ==? "*" then (expr * right_)%float
             else (expr / right_)%float)
            current
      else Ok (expr, current - 1)
    else Ok (expr, current).
Proof. reflexivity. Qed.

Lemma parseExponentiation_S (fuel current : nat) :
  parseExponentiation M tokens x (S fuel) current
  = '(expr, current) <- parseUnary M tokens x fuel current ;;
    let (matched, current) := match_ tokens OPERATOR current in
    if matched then
      let operator := value (previous tokens current) in
      if operator ==? "^" then
        '(right_, current) <- parseExponentiation M tokens x fuel current ;;
        Ok (Math_pow M expr right_, current)
      else Ok (expr, current - 1)
    else Ok (expr, current).
Proof. reflexivity. Qed.

(** On a stream that ends with an EOF token the cursor stays inside the
    stream, so [tokenAt] never reads past it. *)
Lemma advance_in_range (front : list token) (p current : nat) :
  tokens = (front ++ [mkToken EOF "" p])%list ->
  current < List.length tokens ->
  advance tokens current < List.length tokens.
Proof.
  intros Htokens Hlt. unfold advance.
  destruct (isAtEnd tokens current) eqn:Hend; [exact Hlt|].
  unfold isAtEnd, getCurrentToken, tokenAt in Hend.
  rewrite Htokens in *. rewrite length_app in *. cbn [List.length] in *.
  destruct (Nat.eq_dec current (List.length front)) as [->|Hne]; [|lia].
  rewrite nth_middle in Hend. discriminate.
Qed.

Lemma isAtEnd_false (current : nat) :
  isAtEnd tokens current = false -> current < List.length tokens.
Proof.
  unfold isAtEnd, getCurrentToken, tokenAt. intros H.
  destruct (Nat.lt_ge_cases current (List.length tokens)) as [Hlt|Hge]; [exact Hlt|].
  rewrite nth_overflow in H by exact Hge. discriminate.
Qed.

(** A successful [match] moves the cursor by one, inside the stream; a
    failed one leaves it where it was. *)
Lemma match_spec (ty : TokenType) (current : nat) :
  (match_ tokens ty current = (true, S current)
   /\ current < List.length tokens
   /\ type (tokenAt tokens current) = ty)
  \/ match_ tokens ty current = (false, current).
Proof.
  unfold match_, check, advance.
  destruct (isAtEnd tokens current) eqn:Hend; [right; reflexivity|].
  destruct (TokenType_eqb _ ty) eqn:Hty; [left|right; reflexivity].
  split; [reflexivity|]. split; [apply isAtEnd_false; exact Hend|].
  unfold getCurrentToken in Hty.
  destruct (type (tokenAt tokens current)), ty; simpl in Hty;
    congruence.
Qed.

Lemma completes_bind (current : nat) (r : result (float * nat))
  (k : float * nat -> result (float * nat)) :
  completes current r ->
  (forall v current', current <= current' -> completes current (k (v, current'))) ->
  completes current (bind r k).
Proof.
  destruct r as [[v current']|e]; simpl; auto.
Qed.

Lemma completes_le (c1 c2 : nat) (r : result (float * nat)) :
  c1 <= c2 -> completes c2 r -> completes c1 r.
Proof.
  destruct r as [[v c]|e]; simpl; auto. lia.
Qed.

Lemma evaluateFunction_completes (name : string) (argument : float) :
  evaluateFunction M name argument <> Err OutOfFuel.
Proof.
  unfold evaluateFunction.
  repeat match goal with
         | |- (if ?b then _ else _) <> _ => destruct b
         end; discriminate.
Qed.

Local Ltac split_match ty current :=
  let H := fresh "Hm" in
  destruct (match_spec ty current) as [(H & ? & ?)|H]; rewrite H.

Lemma parse_fuel (fuel : nat) :
  (forall current, 8 * remaining tokens current + 1 <= fuel ->
     completes current (parsePrimary M tokens x fuel current))
  /\ (forall current, 8 * remaining tokens current + 2 <= fuel ->
     completes current (parseUnary M tokens x fuel current))
  /\ (forall current, 8 * remaining tokens current + 3 <= fuel ->
     completes current (parseExponentiation M tokens x fuel current))
  /\ (forall expr current, 8 * remaining tokens current + 4 <= fuel ->
     completes current (multiplicationLoop M tokens x fuel expr current))
  /\ (forall current, 8 * remaining tokens current + 5 <= fuel ->
     completes current (parseMultiplication M tokens x fuel current))
  /\ (forall expr current, 8 * remaining tokens current + 6 <= fuel ->
     completes current (additionLoop M tokens x fuel expr current))
  /\ (forall current, 8 * remaining tokens current + 7 <= fuel ->
     completes current (parseAddition M tokens x fuel current))
  /\ (forall current, 8 * remaining tokens current + 8 <= fuel ->
     completes current (parseExpression M tokens x fuel current)).
Proof.
  induction fuel as [|fuel (IHprimary & IHunary & IHexp & IHmulLoop & IHmul
                             & IHaddLoop & IHadd & IHexpr)].
  { repeat split; intros; lia. }
  unfold remaining in *.
  repeat split.
  - (* parsePrimary *)
    intros current Hfuel. cbn [parsePrimary].
    split_match NUMBER current; [simpl; lia|].
    split_match VARIABLE current; [simpl; lia|].
    split_match CONSTANT current.
    { repeat match goal with
             | |- completes _ (if ?b then _ else _) => destruct b
             end; simpl; try lia; discriminate. }
    split_match FUNCTION current.
    { split_match LPAREN (S current); cbn [negb]; [|simpl; discriminate].
      apply completes_bind.
      - eapply completes_le; [|apply IHexpr; lia]. lia.
      - intros v c Hc.
        split_match RPAREN c; cbn [negb]; [|simpl; discriminate].
        pose proof (evaluateFunction_completes
                      (value (previous tokens (S current))) v) as Hne.
        destruct (evaluateFunction _ _ _); simpl; [lia|congruence]. }
    split_match LPAREN current.
    { apply completes_bind.
      - eapply completes_le; [|apply IHexpr; lia]. lia.
      - intros v c Hc.
        split_match RPAREN c; cbn [negb]; simpl; [lia|discriminate]. }
    destruct (check _ _ _ || check _ _ _); simpl; discriminate.
  - (* parseUnary *)
    intros current Hfuel. cbn [parseUnary].
    split_match OPERATOR current; [|apply IHprimary; lia].
    destruct (_ ==? "-").
    { apply completes_bind.
      - eapply completes_le; [|apply IHunary; lia]. lia.
      - intros v c Hc. simpl. lia. }
    destruct (_ ==? "+"); [|simpl; discriminate].
    eapply completes_le; [|apply IHunary; lia]. lia.
  - (* parseExponentiation *)
    intros current Hfuel. cbn [parseExponentiation].
    apply completes_bind; [apply IHunary; lia|].
    intros v c Hc.
    split_match OPERATOR c; [|simpl; lia].
    destruct (_ ==? "^"); [|simpl; lia].
    apply completes_bind.
    + eapply completes_le; [|apply IHexp; lia]. lia.
    + intros v' c' Hc'. simpl. lia.
  - (* multiplicationLoop *)
    intros expr current Hfuel. cbn [multiplicationLoop].
    split_match OPERATOR current; [|simpl; lia].
    destruct (_ || _); [|simpl; lia].
    apply (completes_le current (S current)); [lia|].
    apply completes_bind; [apply IHexp; lia|].
    intros v c Hc.
    destruct (_ && _); [simpl; discriminate|].
    eapply completes_le; [|apply IHmulLoop; lia]. lia.
  - (* parseMultiplication *)
    intros current Hfuel. cbn [parseMultiplication].
    apply completes_bind; [apply IHexp; lia|].
    intros v c Hc. eapply completes_le; [|apply IHmulLoop; lia]. lia.
  - (* additionLoop *)
    intros expr current Hfuel. cbn [additionLoop].
    split_match OPERATOR current; [|simpl; lia].
    destruct (_ || _); [|simpl; lia].
    apply (completes_le current (S current)); [lia|].
    apply completes_bind; [apply IHmul; lia|].
    intros v c Hc.
    eapply completes_le; [|apply IHaddLoop; lia]. lia.
  - (* parseAddition *)
    intros current Hfuel. cbn [parseAddition].
    apply completes_bind; [apply IHmul; lia|].
    intros v c Hc. eapply completes_le; [|apply IHaddLoop; lia]. lia.
  - (* parseExpression *)
    intros current Hfuel. cbn [parseExpression]. apply IHadd; lia.
Qed.

(** [parseExpression], started on the whole stream with its budget, returns
    a value or throws one of the source's errors. *)
Lemma parseExpression_budget :
  parseExpression M tokens x (budget tokens) 0 <> Err OutOfFuel.
Proof.
  destruct (parse_fuel (budget tokens)) as (_ & _ & _ & _ & _ & _ & _ & H).
  specialize (H 0). unfold remaining, budget in H.
  rewrite Nat.sub_0_r in H. specialize (H (le_n _)).
  destruct (parseExpression _ _ _ _ _) as [[v c]|e]; simpl in H; congruence.
Qed.

(** A method that ended within its budget ends the same way with more: the
    budget takes no part in what is computed. *)
Lemma bind_settled (r1 r2 : result (float * nat))
  (k1 k2 : float * nat -> result (float * nat)) :
  (settled r1 -> r2 = r1) ->
  (forall v current, r1 = Ok (v, current) ->
     settled (k1 (v, current)) -> k2 (v, current) = k1 (v, current)) ->
  settled (bind r1 k1) -> bind r2 k2 = bind r1 k1.
Proof.
  intros Hr Hk. destruct r1 as [[v current]|e]; cbn [bind]; intros Hs.
  - rewrite Hr by discriminate. cbn [bind]. apply Hk; [reflexivity|exact Hs].
  - rewrite Hr by exact Hs. reflexivity.
Qed.

Lemma parse_fuel_S (fuel : nat) :
  (forall current, settled (parsePrimary M tokens x fuel current) ->
     parsePrimary M tokens x (S fuel) current
     = parsePrimary M tokens x fuel current)
  /\ (forall current, settled (parseUnary M tokens x fuel current) ->
     parseUnary M tokens x (S fuel) current
     = parseUnary M tokens x fuel current)
  /\ (forall current, settled (parseExponentiation M tokens x fuel current) ->
     parseExponentiation M tokens x (S fuel) current
     = parseExponentiation M tokens x fuel current)
  /\ (forall expr current,
     settled (multiplicationLoop M tokens x fuel expr current) ->
     multiplicationLoop M tokens x (S fuel) expr current
     = multiplicationLoop M tokens x fuel expr current)
  /\ (forall current, settled (parseMultiplication M tokens x fuel current) ->
     parseMultiplication M tokens x (S fuel) current
     = parseMultiplication M tokens x fuel current)
  /\ (forall expr current, settled (additionLoop M tokens x fuel expr current) ->
     additionLoop M tokens x (S fuel) expr current
     = additionLoop M tokens x fuel expr current)
  /\ (forall current, settled (parseAddition M tokens x fuel current) ->
     parseAddition M tokens x (S fuel) current
     = parseAddition M tokens x fuel current)
  /\ (forall current, settled (parseExpression M tokens x fuel current) ->
     parseExpression M tokens x (S fuel) current
     = parseExpression M tokens x fuel current).
Proof.
  induction fuel as [|fuel (IHprimary & IHunary & IHexp & IHmulLoop & IHmul
                             & IHaddLoop & IHadd & IHexpr)].
  { repeat split; intros; exfalso; auto. }
  repeat split.
  - (* parsePrimary *)
    intros current. cbn [parsePrimary].
    destruct (match_ tokens NUMBER current) as [[|] c1]; [reflexivity|].
    destruct (match_ tokens VARIABLE c1) as [[|] c2]; [reflexivity|].
    destruct (match_ tokens CONSTANT c2) as [[|] c3]; [reflexivity|].
    destruct (match_ tokens FUNCTION c3) as [[|] c4].
    { destruct (match_ tokens LPAREN c4) as [[|] c5]; cbn [negb];
        [|reflexivity].
      apply bind_settled; [apply IHexpr|]. reflexivity. }
    destruct (match_ tokens LPAREN c4) as [[|] c5]; [|reflexivity].
    apply bind_settled; [apply IHexpr|]. reflexivity.
  - (* parseUnary *)
    intros current. cbn [parseUnary].
    destruct (match_ tokens OPERATOR current) as [[|] c1]; [|apply IHprimary].
    destruct (_ ==? "-").
    { apply bind_settled; [apply IHunary|]. reflexivity. }
    destruct (_ ==? "+"); [apply IHunary|reflexivity].
  - (* parseExponentiation *)
    intros current. cbn [parseExponentiation].
    apply bind_settled; [apply IHunary|].
    intros v c _.
    destruct (match_ tokens OPERATOR c) as [[|] c1]; [|reflexivity].
    destruct (_ ==? "^"); [|reflexivity].
    apply bind_settled; [apply IHexp|]. reflexivity.
  - (* multiplicationLoop *)
    intros expr current. cbn [multiplicationLoop].
    destruct (match_ tokens OPERATOR current) as [[|] c1]; [|reflexivity].
    destruct (_ || _); [|reflexivity].
    apply bind_settled; [apply IHexp|].
    intros v c _. destruct (_ && _); [reflexivity|apply IHmulLoop].
  - (* parseMultiplication *)
    intros current. cbn [parseMultiplication].
    apply bind_settled; [apply IHexp|].
    intros v c _. apply IHmulLoop.
  - (* additionLoop *)
    intros expr current. cbn [additionLoop].
    destruct (match_ tokens OPERATOR current) as [[|] c1]; [|reflexivity].
    destruct (_ || _); [|reflexivity].
    apply bind_settled; [apply IHmul|].
    intros v c _. apply IHaddLoop.
  - (* parseAddition *)
    intros current. cbn [parseAddition].
    apply bind_settled; [apply IHmul|].
    intros v c _. apply IHaddLoop.
  - (* parseExpression *)
    intros current. cbn [parseExpression]. apply IHadd.
Qed.

(** With any budget above its own, [parseExpression] returns what it returns
    with its own. *)
Lemma parseExpression_fuel_irrelevant (extra : nat) :
  parseExpression M tokens x (extra + budget tokens) 0
  = parseExpression M tokens x (budget tokens) 0.
Proof.
  induction extra as [|extra IH]; [reflexivity|].
  cbn [Nat.add]. rewrite <- IH.
  apply (proj2 (proj2 (proj2 (proj2 (proj2 (proj2 (proj2 (parse_fuel_S _)))))))).
  unfold settled. rewrite IH. apply parseExpression_budget.
Qed.

End Methods.

End ParserFacts.

Module MathParserFacts.

Import MathParser.

(** [evaluate] always returns: a value, or the wrapped error of the lexer or
    of the parser; the step budget of the model is never what stops it. *)
Lemma evaluate_total (M : MathLib) (expression : string) (x : float) :
  (exists v, evaluate M expression x = Ok v)
  \/ (exists cause, evaluate M expression x = Err (InvalidExpression expression cause)
                    /\ cause <> OutOfFuel).
Proof.
  unfold evaluate.
  pose proof (LexerFacts.tokenize_fuel expression) as Hlex.
  destruct (Lexer.tokenize expression) as [tokens|e]; cbn [bind].
  - pose proof (ParserFacts.parseExpression_budget M tokens x) as Hparse.
    destruct (ExpressionParser.parseExpression _ _ _ _ _) as [[v c]|e]; cbn [bind].
    + destruct (negb _); [right|left]; eauto.
      eexists; split; [reflexivity|discriminate].
    + right. exists e. split; [reflexivity|congruence].
  - right. exists e. split; [reflexivity|congruence].
Qed.

End MathParserFacts.

(** * The engine on the formulas of its test list *)

Module Examples.

Import MathParser MathCalculations.

Example evaluate_polynomial :
  evaluate Sample.math "x^2 + 3*x - 5" 2 = Ok 5%float.
Proof. vm_compute. reflexivity. Qed.

Example evaluate_sqrt_negative :
  evaluate Sample.math "sqrt(-1)" 0
  = Err (InvalidExpression "sqrt(-1)" SqrtNegative).
Proof. vm_compute. reflexivity. Qed.

Example evaluate_unknown_identifier :
  evaluate Sample.math "y+1" 0
  = Err (InvalidExpression "y+1" (UnknownIdentifier "y" 0)).
Proof. vm_compute. reflexivity. Qed.

Example evaluate_no_implicit_product :
  evaluate Sample.math "2x" 0 = Err (InvalidExpression "2x" (TrailingToken 1)).
Proof. vm_compute. reflexivity. Qed.

Example evaluate_unary_minus_binds_first :
  evaluate Sample.math "-2^2" 0 = Ok 4%float.
Proof. vm_compute. reflexivity. Qed.

Example derivative_of_square :
  calculateDerivative Sample.math "x^2" 2 default_h
  = mkResult 4.0001000000078335%float None.
Proof. vm_compute. reflexivity. Qed.

Example integral_of_square :
  calculateDefiniteIntegral Sample.math "x^2" 0 3 100
  = mkResult 8.9999999999999982%float None.
Proof. vm_compute. reflexivity. Qed.

Example tangent_of_square :
  calculateTangentLine Sample.math "x^2" 1
  = mkTangent 2.000099999999172%float (-1.000099999999172)%float
      "y = 2.00x - 1.00" (1%float, 1%float).
Proof. vm_compute. reflexivity. Qed.

Example normal_of_square :
  normalEquation (calculateNormalLine Sample.math "x^2" 1) = "y = -0.50x + 1.50".
Proof. vm_compute. reflexivity. Qed.

Example toFixed2_rounds_the_double :
  (toFixed2 Sample.math 1.005, toFixed2 Sample.math 0.125,
   toFixed2 Sample.math (-0.001), toFixed2 Sample.math 1234.5678)
  = ("1.00", "0.13", "-0.00", "1234.57").
Proof. vm_compute. reflexivity. Qed.

End Examples.

(** * Exponentiation *)

Module Exponentiation.

Import ExpressionParser MathParser Spec.

(** C1.  Exponentiation is right-associative.  In any token stream, when a
    unary operand [a] is followed by [^], what is raised to is the value [r]
    of the whole exponentiation that follows, so that [a^b^c] is
    [pow a (pow b c)]: the stream [a^b^c] of any three operands evaluates to
    that, the whole stream being consumed; [evaluate "2^3^2"] is
    [pow 2 (pow 3 2)] at every [x] while the parenthesised [(2^3)^2] is
    [pow (pow 2 3) 2]; and with a [Math.pow] that is exact on these small
    integers [evaluate "2^3^2" 0] is 512. *)
Theorem exponentiation_right_associative (M : MathLib) (x : float) :
  (forall (tokens : list token) (fuel current : nat) (a : float) (c1 : nat)
          (r : float) (c2 : nat),
      parseUnary M tokens x fuel current = Ok (a, c1) ->
      type (tokenAt tokens c1) = OPERATOR ->
      value (tokenAt tokens c1) = "^" ->
      parseExponentiation M tokens x fuel (S c1) = Ok (r, c2) ->
      parseExponentiation M tokens x (S fuel) current
      = Ok (Math_pow M a r, c2))
  /\ (forall a b c : operand,
        parseExpression M (powerTower a b c) x (budget (powerTower a b c)) 0
        = Ok (Math_pow M (operandValue x a)
                (Math_pow M (operandValue x b) (operandValue x c)), 5))
  /\ evaluate M "2^3^2" x = Ok (Math_pow M 2 (Math_pow M 3 2))
  /\ evaluate M "(2^3)^2" x = Ok (Math_pow M (Math_pow M 2 3) 2)
  /\ evaluate M "x^x^x" x = Ok (Math_pow M x (Math_pow M x x))
  /\ (Math_pow M 3 2 = 9%float -> Math_pow M 2 9 = 512%float ->
      evaluate M "2^3^2" 0 = Ok 512%float).
Proof.
  split; [|split; [|split; [|split; [|split]]]].
  - intros tokens fuel current a c1 r c2 Hunary Hty Hval Hright.
    rewrite ParserFacts.parseExponentiation_S, Hunary. cbn [bind].
    assert (match_ tokens OPERATOR c1 = (true, S c1)) as ->.
    { unfold match_, check, advance, isAtEnd, getCurrentToken.
      rewrite Hty. reflexivity. }
    unfold previous. cbn [Nat.sub]. rewrite Nat.sub_0_r, Hval.
    change ("^" ==? "^") with true. cbv iota.
    rewrite Hright. reflexivity.
  - intros [da| | |] [db| | |] [dc| | |]; reflexivity.
  - vm_compute. reflexivity.
  - vm_compute. reflexivity.
  - vm_compute. reflexivity.
  - intros H32 H29.
    assert (evaluate M "2^3^2" 0 = Ok (Math_pow M 2 (Math_pow M 3 2))) as ->
      by (vm_compute; reflexivity).
    rewrite H32, H29. reflexivity.
Qed.

Lemma exponentiation_right_associative_witness :
  parseExponentiation Sample.math (powerTower (Literal "2") (Literal "3") (Literal "2"))
    0 9 0 = Ok (512%float, 5)
  /\ Math_pow Sample.math 3 2 = 9%float
  /\ Math_pow Sample.math 2 9 = 512%float
  /\ evaluate Sample.math "2^3^2" 0 = Ok 512%float.
Proof.
  split.
  { apply (proj1 (exponentiation_right_associative Sample.math 0)
             (powerTower (Literal "2") (Literal "3") (Literal "2"))
             8 0 2%float 1 9%float 5); vm_compute; reflexivity. }
  split; [vm_compute; reflexivity|]. split; [vm_compute; reflexivity|].
  apply (proj2 (proj2 (proj2 (proj2 (proj2
           (exponentiation_right_associative Sample.math 0))))));
    vm_compute; reflexivity.
Defined.

End Exponentiation.

(** * Division *)

Module Division.

Import ExpressionParser MathParser Spec.

(** C2.  Division by a divisor that evaluates to exactly zero fails with a
    domain error and no quotient is computed: whenever the loop of
    [parseMultiplication] stands on a [/] operator and the operand parsed
    after it compares equal to zero, the loop throws [DivisionByZero],
    whatever the dividend [expr]; [evaluate "1/x"] fails with that error,
    wrapped, at every [x] equal to zero, and so at [x = 0]. *)
Theorem division_by_zero_fails (M : MathLib) :
  (forall (tokens : list token) (x : float) (fuel : nat) (expr : float)
          (current : nat) (divisor : float) (current' : nat),
      type (tokenAt tokens current) = OPERATOR ->
      value (tokenAt tokens current) = "/" ->
      parseExponentiation M tokens x fuel (S current) = Ok (divisor, current') ->
      (divisor =? 0)%float = true ->
      multiplicationLoop M tokens x (S fuel) expr current = Err DivisionByZero)
  /\ (forall x : float,
        (x =? 0)%float = true ->
        evaluate M "1/x" x = Err (InvalidExpression "1/x" DivisionByZero))
  /\ evaluate M "1/x" 0 = Err (InvalidExpression "1/x" DivisionByZero)
  /\ kind_of (InvalidExpression "1/x" DivisionByZero) = DomainError.
Proof.
  assert (forall (tokens : list token) (x : float) (fuel : nat) (expr : float)
                 (current : nat) (divisor : float) (current' : nat),
             type (tokenAt tokens current) = OPERATOR ->
             value (tokenAt tokens current) = "/" ->
             parseExponentiation M tokens x fuel (S current)
             = Ok (divisor, current') ->
             (divisor =? 0)%float = true ->
             multiplicationLoop M tokens x (S fuel) expr current
             = Err DivisionByZero) as Hloop.
  { intros tokens x fuel expr current divisor current' Hty Hval Hparse Hzero.
    rewrite ParserFacts.multiplicationLoop_S.
    assert (match_ tokens OPERATOR current = (true, S current)) as ->.
    { unfold match_, check, advance, isAtEnd, getCurrentToken.
      rewrite Hty. reflexivity. }
    unfold previous. cbn [Nat.sub]. rewrite Nat.sub_0_r, Hval.
    change ((("/" ==? "*") || ("/" ==? "/"))%bool) with true. cbv iota.
    rewrite Hparse. cbn [bind].
    change ("/" ==? "/") with true.
    rewrite Hzero. reflexivity. }
  assert (forall x : float,
             (x =? 0)%float = true ->
             evaluate M "1/x" x = Err (InvalidExpression "1/x" DivisionByZero))
    as Hx; [|split; [exact Hloop|split; [exact Hx|split]]].
  - intros x Hzero. unfold evaluate.
    change (Lexer.tokenize "1/x") with (Ok one_over_x). cbn [bind].
    change (budget one_over_x) with (S (S (S 37))).
    rewrite ParserFacts.parseExpression_S, ParserFacts.parseAddition_S,
      ParserFacts.parseMultiplication_S.
    change (parseExponentiation M one_over_x x 37 0) with (Ok (1%float, 1)).
    cbn [bind].
    rewrite (Hloop one_over_x x 36 1%float 1 x 3);
      [reflexivity | reflexivity | reflexivity | reflexivity | exact Hzero].
  - apply (Hx 0%float). reflexivity.
  - reflexivity.
Qed.

Lemma division_by_zero_fails_witness :
  multiplicationLoop Sample.math one_over_x (-0)%float 9 1%float 1
    = Err DivisionByZero
  /\ evaluate Sample.math "1/x" (-0)%float
     = Err (InvalidExpression "1/x" DivisionByZero).
Proof.
  split.
  - apply (proj1 (division_by_zero_fails Sample.math)
             one_over_x (-0)%float 8 1%float 1 (-0)%float 3);
      vm_compute; reflexivity.
  - apply (proj1 (proj2 (division_by_zero_fails Sample.math)) (-0)%float).
    vm_compute. reflexivity.
Defined.

End Division.

(** * Counted loops *)

Module Loops.

Import Spec.

Lemma countFrom_In (j : Z) (k : nat) :
  forall i, In j (countFrom i k) <-> (i <= j < i + Z.of_nat k)%Z.
Proof.
  induction k as [|k IH]; intros i; cbn [countFrom In].
  - lia.
  - rewrite IH. lia.
Qed.

Lemma last_In (values : list float) (d : float) :
  values <> [] -> In (List.last values d) values.
Proof.
  induction values as [|v rest IH]; [congruence|]. intros _.
  destruct rest as [|w rest]; [left; reflexivity|].
  right. apply IH. discriminate.
Qed.

Lemma lastOrNull_filter (p : float -> bool) (values : list float) (v : float) :
  MathCalculations.lastOrNull (filter p values) = Some v -> p v = true.
Proof.
  unfold MathCalculations.lastOrNull. intros H.
  assert (In v (filter p values)) as Hin.
  { destruct (filter p values) as [|w rest] eqn:Hf; [discriminate|].
    apply (f_equal (fun o => match o with Some u => u | None => v end)) in H.
    rewrite <- H. apply last_In. discriminate. }
  apply filter_In in Hin. apply Hin.
Qed.

End Loops.

(** * Simpson's rule *)

Module Simpson.

Import MathParser MathCalculations Spec Loops.

Local Open Scope Z_scope.

Lemma rem2_is_zero (i : Z) : (Z.rem i 2 =? 0) = negb (Z.odd i).
Proof.
  rewrite Zrem_odd. destruct (Z.odd i) eqn:Hodd; [|reflexivity].
  destruct i; simpl in *; [discriminate | reflexivity | reflexivity].
Qed.

(** The loop, when every evaluation it makes succeeds. *)
Lemma simpsonLoop_succeeds (M : MathLib) (expression : string) (a h : float)
  (f : Z -> float) (k : nat) :
  forall (i : Z) (sum : float),
    (forall j, In j (countFrom i k) ->
       evaluate M expression (a + numberOfZ j * h)%float = Ok (f j)) ->
    simpsonLoop M expression a h k i sum
    = Ok (fold_left (fun sum i => (sum + weight i * f i)%float) (countFrom i k) sum).
Proof.
  induction k as [|k IH]; intros i sum Hf; cbn [simpsonLoop countFrom fold_left].
  - reflexivity.
  - rewrite (Hf i) by (left; reflexivity). cbn [bind].
    rewrite IH by (intros j Hj; apply Hf; right; exact Hj).
    unfold weight. rewrite rem2_is_zero. destruct (Z.odd i); reflexivity.
Qed.

(** C3.  [calculateDefiniteIntegral] works on [n' = n + 1] subintervals when
    [n] is odd and on [n' = n] otherwise, with [h = (b - a) / n']; when the
    evaluations at [a], at [b] and at every interior point [a + i * h],
    [1 <= i < n'], succeed, its value is [h / 3] times the sum of the two
    endpoint values and of the interior values weighted 4 at odd and 2 at
    even indices, and no error is reported. *)
Theorem simpson_rule (M : MathLib) (expression : string) (a b : float) (n : Z)
  (f : Z -> float) (fa fb : float) :
  let n' := evenCount n in
  let h := ((b - a) / numberOfZ n')%float in
  evaluate M expression a = Ok fa ->
  evaluate M expression b = Ok fb ->
  (forall i, 1 <= i < n' ->
     evaluate M expression (a + numberOfZ i * h)%float = Ok (f i)) ->
  calculateDefiniteIntegral M expression a b n
  = mkResult ((h / 3) * weightedSum f fa fb n')%float None.
Proof.
  intros n' h Ha Hb Hf. unfold calculateDefiniteIntegral.
  rewrite rem2_is_zero, negb_involutive.
  change (if Z.odd n then n + 1 else n) with n'. fold h.
  rewrite Ha, Hb. cbn [bind].
  rewrite (simpsonLoop_succeeds M expression a h f).
  - reflexivity.
  - intros j Hj. apply Hf. apply countFrom_In in Hj. lia.
Qed.

(** Three subintervals are asked for and four are used: [x*x] over [0, 3]. *)
Lemma simpson_rule_witness :
  evaluate Sample.math "x*x" 0 = Ok 0%float
  /\ evaluate Sample.math "x*x" 3 = Ok 9%float
  /\ calculateDefiniteIntegral Sample.math "x*x" 0 3 3 = mkResult 9%float None.
Proof.
  split; [vm_compute; reflexivity|]. split; [vm_compute; reflexivity|].
  pose (f := fun i : Z =>
               let t := (0 + numberOfZ i * ((3 - 0) / numberOfZ 4))%float in
               (t * t)%float).
  assert (forall t : float, evaluate Sample.math "x*x" t = Ok (t * t)%float)
    as Hsquare by (intros t; vm_compute; reflexivity).
  rewrite (simpson_rule Sample.math "x*x" 0 3 3 f 0 9).
  - vm_compute. reflexivity.
  - vm_compute. reflexivity.
  - vm_compute. reflexivity.
  - intros i _. apply Hsquare.
Defined.

End Simpson.

(** * The derivative estimator *)

Module Derivative.

Import MathParser MathCalculations.

(** C6, as the code has it.  [calculateDerivative] returns the forward
    difference [(f(x+h) - f(x)) / h] without an error when both evaluations
    succeed; when either of them fails it returns the value 0 together with
    the error ['Unable to calculate derivative'], and nothing is thrown.  The
    default step is 0.0001. *)
Theorem calculateDerivative_forward_difference (M : MathLib)
  (expression : string) (x h : float) :
  (forall f_x_plus_h f_x : float,
      evaluate M expression (x + h)%float = Ok f_x_plus_h ->
      evaluate M expression x = Ok f_x ->
      calculateDerivative M expression x h
      = mkResult ((f_x_plus_h - f_x) / h)%float None)
  /\ (is_ok (evaluate M expression (x + h)%float)
      && is_ok (evaluate M expression x) = false ->
      calculateDerivative M expression x h
      = mkResult 0%float (Some "Unable to calculate derivative"))
  /\ default_h = 0.0001%float.
Proof.
  unfold calculateDerivative. split; [|split].
  - intros v1 v2 H1 H2. rewrite H1, H2. reflexivity.
  - destruct (evaluate M expression (x + h)%float) as [v1|e1]; cbn [bind];
      [|reflexivity].
    destruct (evaluate M expression x) as [v2|e2]; cbn [bind];
      [discriminate|reflexivity].
  - reflexivity.
Qed.

Lemma calculateDerivative_forward_difference_witness :
  calculateDerivative Sample.math "x*x" 2 1
  = mkResult ((9 - 4) / 1)%float None
  /\ calculateDerivative Sample.math "1/x" 0 1
     = mkResult 0%float (Some "Unable to calculate derivative").
Proof.
  split.
  - apply (proj1 (calculateDerivative_forward_difference
                    Sample.math "x*x" 2 1)); vm_compute; reflexivity.
  - apply (proj1 (proj2 (calculateDerivative_forward_difference
                           Sample.math "1/x" 0 1))); vm_compute; reflexivity.
Defined.

(** Against C6 as stated: the sentinel carries the message of the source and
    no other; on the unknown identifier [y] the error field is not
    ["derivative unavailable"]. *)
Lemma calculateDerivative_message_counterexample :
  is_ok (evaluate Sample.math "y" 0) = false
  /\ calculateDerivative Sample.math "y" 0 default_h
     <> mkResult 0%float (Some "derivative unavailable").
Proof.
  split; [vm_compute; reflexivity|].
  vm_compute. intros H. discriminate H.
Qed.

End Derivative.

(** * The limit estimator *)

Module Limit.

Import MathParser MathCalculations Spec.

Lemma limitStep_fold (M : MathLib) (expression : string) (a : float)
  (ss : list float) :
  forall leftValues rightValues : list float,
    fold_left (limitStep M expression a) ss (leftValues, rightValues)
    = (leftValues ++ filter isFinite (map fst (jointValues M expression a ss)),
       rightValues ++ filter isFinite (map snd (jointValues M expression a ss)))%list.
Proof.
  induction ss as [|step ss IH]; intros leftValues rightValues;
    cbn [fold_left jointValues flat_map map filter].
  - rewrite !app_nil_r. reflexivity.
  - fold (jointValues M expression a ss). unfold limitStep at 2.
    destruct (evaluate M expression (a - step)%float) as [l|el]; cbn [bind];
      [|rewrite IH; reflexivity].
    destruct (evaluate M expression (a + step)%float) as [r|er]; cbn [bind];
      [|rewrite IH; reflexivity].
    rewrite IH. cbn [app map fst snd filter].
    destruct (isFinite l), (isFinite r); rewrite <- ?app_assoc; reflexivity.
Qed.

(** The two one-sided results are the last entries of the two arrays. *)
Lemma calculateLimit_sides (M : MathLib) (expression : string)
  (a epsilon : float) :
  leftLimit (calculateLimit M expression a epsilon)
  = lastOrNull (filter isFinite (map fst (jointValues M expression a steps)))
  /\ rightLimit (calculateLimit M expression a epsilon)
     = lastOrNull (filter isFinite (map snd (jointValues M expression a steps))).
Proof.
  unfold calculateLimit. rewrite limitStep_fold. cbn [app].
  destruct (lastOrNull (filter isFinite (map fst _))) as [l|],
           (lastOrNull (filter isFinite (map snd _))) as [r|];
    try destruct (Math_abs (l - r) <? epsilon)%float; split; reflexivity.
Qed.

(** C4 does not hold of the code.  [calculateLimit] goes through the steps
    0.1, 0.01, 0.001, 0.0001 with one array per side and one [isFinite] test
    per side, but it makes the two evaluations of a step inside one [try]
    block: a step at which either evaluation fails adds to neither side, so
    that a failure on one side discards the value of the other side at that
    step; [leftLimit] and [rightLimit] are the last values kept that way.
    For the square root at 0 every attempt on the right succeeds with a
    finite value, the last of them 0.01, and yet the result is null on both
    sides; a left side that is only non-finite (NaN, without a failure)
    leaves the right side reported. *)
Theorem calculateLimit_joint_steps (M : MathLib) (expression : string)
  (a epsilon : float) :
  steps = [0.1%float; 0.01%float; 0.001%float; 0.0001%float]
  /\ leftLimit (calculateLimit M expression a epsilon)
     = lastOrNull (filter isFinite (map fst (jointValues M expression a steps)))
  /\ rightLimit (calculateLimit M expression a epsilon)
     = lastOrNull (filter isFinite (map snd (jointValues M expression a steps)))
  /\ List.length (sideValues Sample.math "sqrt(x)" (fun s => (0 + s)%float) steps)
     = 4
  /\ lastOrNull (sideValues Sample.math "sqrt(x)" (fun s => (0 + s)%float) steps)
     = Some 0.01%float
  /\ sideValues Sample.math "sqrt(x)" (fun s => (0 - s)%float) steps = []
  /\ calculateLimit Sample.math "sqrt(x)" 0 default_epsilon = noLimit
  /\ calculateLimit Sample.math rightOnly 0 default_epsilon
     = mkLimit None (Some 0%float) (Some 0%float) false.
Proof.
  split; [reflexivity|].
  destruct (calculateLimit_sides M expression a epsilon) as [Hleft Hright].
  split; [exact Hleft|]. split; [exact Hright|].
  repeat split; vm_compute; reflexivity.
Qed.

(** The failing input of C4 once more, the two sides apart: what the right
    side would keep on its own, and what is reported for it. *)
Lemma calculateLimit_sides_counterexample :
  lastOrNull (sideValues Sample.math "sqrt(x)" (fun s => (0 + s)%float) steps)
  = Some 0.01%float
  /\ rightLimit (calculateLimit Sample.math "sqrt(x)" 0 default_epsilon) = None.
Proof.
  split; vm_compute; reflexivity.
Qed.

(** C5.  The decision policy of [calculateLimit]: two sides that differ by
    less than [epsilon] give [exists = true] and their average as the limit;
    a single side is reported as the limit with [exists = false]; with no
    side, the three values are null and [exists = false].  The default
    [epsilon] is 0.001. *)
Theorem calculateLimit_decision (M : MathLib) (expression : string)
  (a epsilon : float) :
  let r := calculateLimit M expression a epsilon in
  (forall l r' : float,
      leftLimit r = Some l -> rightLimit r = Some r' ->
      (Math_abs (l - r') <? epsilon)%float = true ->
      exists_ r = true /\ limit r = Some ((l + r') / 2)%float)
  /\ (forall l : float,
        leftLimit r = Some l -> rightLimit r = None ->
        limit r = Some l /\ exists_ r = false)
  /\ (forall r' : float,
        leftLimit r = None -> rightLimit r = Some r' ->
        limit r = Some r' /\ exists_ r = false)
  /\ (leftLimit r = None -> rightLimit r = None ->
      limit r = None /\ exists_ r = false)
  /\ default_epsilon = 0.001%float.
Proof.
  unfold calculateLimit.
  destruct (fold_left _ steps _) as [leftValues rightValues].
  destruct (lastOrNull leftValues) as [l|], (lastOrNull rightValues) as [r'|];
    cbn zeta;
    try destruct (Math_abs (l - r') <? epsilon)%float eqn:Hclose;
    cbn [leftLimit rightLimit limit exists_];
    repeat split; intros;
    repeat match goal with
           | H : Some _ = Some _ |- _ => injection H as H; subst
           end;
    congruence.
Qed.

Lemma calculateLimit_decision_witness :
  (exists_ (calculateLimit Sample.math "x*x" 0 default_epsilon) = true
   /\ limit (calculateLimit Sample.math "x*x" 0 default_epsilon)
      = Some ((0x1.5798ee2308c3ap-27 + 0x1.5798ee2308c3ap-27) / 2)%float)
  /\ (limit (calculateLimit Sample.math rightOnly 0 default_epsilon)
      = Some 0%float
      /\ exists_ (calculateLimit Sample.math rightOnly 0 default_epsilon) = false)
  /\ (limit (calculateLimit Sample.math "sqrt(x)" (-1) default_epsilon) = None
      /\ exists_ (calculateLimit Sample.math "sqrt(x)" (-1) default_epsilon)
         = false).
Proof.
  split; [|split].
  - apply (proj1 (calculateLimit_decision Sample.math "x*x" 0 default_epsilon));
      vm_compute; reflexivity.
  - apply (proj1 (proj2 (proj2
             (calculateLimit_decision Sample.math rightOnly 0 default_epsilon))));
      vm_compute; reflexivity.
  - apply (proj1 (proj2 (proj2 (proj2
             (calculateLimit_decision Sample.math "sqrt(x)" (-1) default_epsilon)))));
      vm_compute; reflexivity.
Defined.

End Limit.

(** * The point sampler *)

Module Sampler.

Import MathParser MathCalculations Spec Loops.

Lemma generatePointsLoop_flat_map (M : MathLib) (expression : string)
  (xMin stepSize : float) (k : nat) :
  forall (i : Z) (points : list point),
    generatePointsLoop M expression xMin stepSize k i points
    = (points ++ flat_map (sampleAt M expression xMin stepSize) (countFrom i k))%list.
Proof.
  induction k as [|k IH]; intros i points;
    cbn [generatePointsLoop countFrom flat_map].
  - rewrite app_nil_r. reflexivity.
  - rewrite IH. unfold sampleAt at 2.
    destruct (evaluate M expression _) as [y|e]; [|reflexivity].
    destruct (isFinite y); [|reflexivity].
    rewrite <- app_assoc. reflexivity.
Qed.

Lemma generatePoints_flat_map (M : MathLib) (expression : string)
  (xMin xMax : float) (steps : Z) :
  generatePoints M expression xMin xMax steps
  = flat_map (sampleAt M expression xMin ((xMax - xMin) / numberOfZ steps)%float)
      (countFrom 0 (Z.to_nat (steps + 1))).
Proof.
  unfold generatePoints. apply generatePointsLoop_flat_map.
Qed.

Lemma sampleAt_finite (M : MathLib) (expression : string)
  (xMin stepSize : float) (i : Z) :
  Forall (fun p : point => isFinite (snd p) = true)
    (sampleAt M expression xMin stepSize i).
Proof.
  unfold sampleAt. destruct (evaluate M expression _) as [y|e]; [|constructor].
  destruct (isFinite y) eqn:Hy; constructor; [exact Hy|constructor].
Qed.

Lemma generatePoints_finite (M : MathLib) (expression : string)
  (xMin xMax : float) (steps : Z) :
  Forall (fun p : point => isFinite (snd p) = true)
    (generatePoints M expression xMin xMax steps).
Proof.
  rewrite generatePoints_flat_map.
  induction (countFrom 0 (Z.to_nat (steps + 1))) as [|i rest IH];
    cbn [flat_map]; [constructor|].
  apply Forall_app. split; [apply sampleAt_finite|exact IH].
Qed.

Lemma derivativePointsLoop_finite (M : MathLib) (expression : string)
  (xMin stepSize : float) (k : nat) :
  forall (i : Z) (points : list point),
    Forall (fun p : point => isFinite (snd p) = true) points ->
    Forall (fun p : point => isFinite (snd p) = true)
      (derivativePointsLoop M expression xMin stepSize k i points).
Proof.
  induction k as [|k IH]; intros i points Hpoints;
    cbn [derivativePointsLoop]; [exact Hpoints|].
  apply IH.
  destruct (error (calculateDerivative M expression _ default_h));
    [exact Hpoints|].
  destruct (isFinite (value (calculateDerivative M expression _ default_h)))
    eqn:Hy; [|exact Hpoints].
  apply Forall_app. split; [exact Hpoints|].
  constructor; [exact Hy|constructor].
Qed.

(** C7, as the code has it.  [generatePoints] is a total function: it
    evaluates the formula at the points [x_i = xMin + i * ((xMax - xMin) /
    stepCount)], [i = 0 .. stepCount], keeps exactly the samples whose
    evaluation succeeds with a finite value, and returns them by increasing
    index [i]; every evaluation returns.  For ["1/x"] on [-1, 1] with 10
    steps the point of index 5 is 0, its evaluation fails, and the ten
    samples returned have no [x = 0] and strictly increasing [x]. *)
Theorem generatePoints_samples (M : MathLib) (expression : string)
  (xMin xMax : float) (steps : Z) :
  generatePoints M expression xMin xMax steps
  = flat_map (sampleAt M expression xMin ((xMax - xMin) / numberOfZ steps)%float)
      (countFrom 0 (Z.to_nat (steps + 1)))
  /\ (forall x : float, evaluate M expression x <> Err (InvalidExpression expression OutOfFuel))
  /\ (-1 + numberOfZ 5 * ((1 - -1) / numberOfZ 10) = 0)%float
  /\ is_ok (evaluate M "1/x" 0) = false
  /\ List.length (generatePoints M "1/x" (-1) 1 10) = 10%nat
  /\ forallb (fun p : point => negb (fst p =? 0)%float && isFinite (snd p))
       (generatePoints M "1/x" (-1) 1 10) = true
  /\ ascending (map fst (generatePoints M "1/x" (-1) 1 10)) = true.
Proof.
  split; [apply generatePoints_flat_map|].
  split.
  { intros x.
    destruct (MathParserFacts.evaluate_total M expression x)
      as [(v & ->)|(cause & -> & Hcause)]; congruence. }
  repeat split; vm_compute; reflexivity.
Qed.

(** Against C7 as stated: from [xMin = 1] down to [xMax = -1] the samples
    come by decreasing [x]. *)
Lemma generatePoints_order_counterexample :
  map fst (generatePoints Sample.math "x" 1 (-1) 2)
  = [1%float; 0%float; (-1)%float]
  /\ ascending (map fst (generatePoints Sample.math "x" 1 (-1) 2)) = false.
Proof.
  split; vm_compute; reflexivity.
Qed.

End Sampler.

(** * Non-finite values *)

Module NonFinite.

Import MathParser MathCalculations Spec Loops.

Lemma lastOrNull_finite (values : list float) :
  finiteOrNull (lastOrNull (filter isFinite values)) = true.
Proof.
  destruct (lastOrNull (filter isFinite values)) as [v|] eqn:Hlast;
    [|reflexivity].
  apply lastOrNull_filter in Hlast. exact Hlast.
Qed.

(** C9, as the code has it.  The operations that sample filter the
    non-finite values out: every sample of [generatePoints] and of
    [calculateDerivativePoints] is finite, and so are the one-sided limits
    [calculateLimit] reports.  [evaluate] itself makes no such check: the
    value of ["x*x"] is the product, whatever it is. *)
Theorem samplers_filter_non_finite (M : MathLib) (expression : string)
  (xMin xMax a epsilon : float) (stepCount : Z) :
  Forall (fun p : point => isFinite (snd p) = true)
    (generatePoints M expression xMin xMax stepCount)
  /\ Forall (fun p : point => isFinite (snd p) = true)
       (calculateDerivativePoints M expression xMin xMax stepCount)
  /\ finiteOrNull (leftLimit (calculateLimit M expression a epsilon)) = true
  /\ finiteOrNull (rightLimit (calculateLimit M expression a epsilon)) = true
  /\ (forall x : float, evaluate M "x*x" x = Ok (x * x)%float).
Proof.
  split; [apply Sampler.generatePoints_finite|].
  split.
  { unfold calculateDerivativePoints.
    apply Sampler.derivativePointsLoop_finite. constructor. }
  destruct (Limit.calculateLimit_sides M expression a epsilon) as [-> ->].
  split; [apply lastOrNull_finite|]. split; [apply lastOrNull_finite|].
  intros x. vm_compute. reflexivity.
Qed.

(** Against C9 as stated: at the finite [x = 2^1000] the square overflows,
    [evaluate] succeeds with Infinity, and the midpoint rule hands the same
    value on as the height of a rectangle and as its sum. *)
Lemma evaluate_non_finite_counterexample :
  isFinite 0x1p+1000 = true
  /\ evaluate Sample.math "x*x" 0x1p+1000 = Ok PrimFloat.infinity
  /\ isFinite PrimFloat.infinity = false
  /\ map height (rectangles (calculateRiemannSum Sample.math "x*x" 0 0x1p+1001 1))
     = [PrimFloat.infinity]
  /\ sumValue (calculateRiemannSum Sample.math "x*x" 0 0x1p+1001 1)
     = PrimFloat.infinity.
Proof.
  repeat split; vm_compute; reflexivity.
Qed.

End NonFinite.

(** * Tangent and normal lines *)

Module Lines.

Import MathParser MathCalculations Spec.

(** C10, as the code has it.  [calculateTangentLine] and
    [calculateNormalLine] are total functions.  When the evaluation of the
    formula at [x0] fails, the first returns the line [{slope: 0,
    yIntercept: 0, equation: "y = 0", point: (x0, 0)}] and the second [{slope:
    0, yIntercept: 0, equation: "y = 0"}], neither of which has an error
    field; when it succeeds with [y0], the tangent goes through [(x0, y0)]. *)
Theorem lines_sentinel (M : MathLib) (expression : string) (x0 : float) :
  (is_ok (evaluate M expression x0) = false ->
   calculateTangentLine M expression x0 = tangentSentinel x0
   /\ calculateNormalLine M expression x0 = normalSentinel)
  /\ (forall y0 : float,
        evaluate M expression x0 = Ok y0 ->
        point_ (calculateTangentLine M expression x0) = (x0, y0)).
Proof.
  unfold calculateNormalLine, calculateTangentLine. split.
  - destruct (evaluate M expression x0) as [y0|e]; [discriminate|].
    intros _. split; reflexivity.
  - intros y0 ->. reflexivity.
Qed.

Lemma lines_sentinel_witness :
  (calculateTangentLine Sample.math "sqrt(x)" (-1) = tangentSentinel (-1)
   /\ calculateNormalLine Sample.math "sqrt(x)" (-1) = normalSentinel)
  /\ point_ (calculateTangentLine Sample.math "x*x" 3) = (3%float, 9%float).
Proof.
  split.
  - apply (proj1 (lines_sentinel Sample.math "sqrt(x)" (-1))).
    vm_compute. reflexivity.
  - apply (proj2 (lines_sentinel Sample.math "x*x" 3)).
    vm_compute. reflexivity.
Defined.

(** Against C10 as stated: for [1 + sqrt(-x)] at 0 the evaluation at
    [x0 + h] fails inside
    [calculateDerivative], whose sentinel slope 0 is then used: the tangent is
    the horizontal line through [(0, 1)] and the normal the vertical line
    [x = 0.00], not the sentinels. *)
Lemma lines_sentinel_counterexample :
  is_ok (evaluate Sample.math "1+sqrt(-x)" (0 + default_h)) = false
  /\ error (calculateDerivative Sample.math "1+sqrt(-x)" 0 default_h)
     = Some "Unable to calculate derivative"
  /\ calculateTangentLine Sample.math "1+sqrt(-x)" 0
     = mkTangent 0%float 1%float "y = 1.00" (0%float, 1%float)
  /\ calculateTangentLine Sample.math "1+sqrt(-x)" 0 <> tangentSentinel 0
  /\ calculateNormalLine Sample.math "1+sqrt(-x)" 0
     = mkNormal PrimFloat.infinity 0%float "x = 0.00"
  /\ calculateNormalLine Sample.math "1+sqrt(-x)" 0 <> normalSentinel.
Proof.
  split; [vm_compute; reflexivity|]. split; [vm_compute; reflexivity|].
  split; [vm_compute; reflexivity|]. split; [vm_compute; discriminate|].
  split; [vm_compute; reflexivity|]. vm_compute; discriminate.
Qed.

End Lines.

(** * Numbers with several decimal points *)

Module Numbers.

Import Lexer MathParser Spec.

Lemma removeWhitespace_number (s : string) :
  allChars isNumberChar s = true -> removeWhitespace s = s.
Proof.
  induction s as [|c rest IH]; cbn [allChars removeWhitespace];
    [reflexivity|].
  intros H. apply andb_true_iff in H as [Hc Hrest].
  rewrite IH by exact Hrest.
  assert (isSpace c = false) as ->; [|reflexivity].
  unfold isNumberChar, isDigit, isDot, isSpace, code in *.
  destruct (Ascii.eqb_spec c "."%char) as [->|_]; [reflexivity|].
  rewrite orb_false_r in Hc. apply andb_true_iff in Hc as [Hlo Hhi].
  apply Nat.leb_le in Hlo, Hhi.
  destruct (9 <=? nat_of_ascii c) eqn:H9, (nat_of_ascii c <=? 13) eqn:H13,
           (nat_of_ascii c =? 32) eqn:H32, (nat_of_ascii c =? 160) eqn:H160;
    try reflexivity;
    try apply Nat.leb_le in H13; try apply Nat.eqb_eq in H32;
    try apply Nat.eqb_eq in H160; lia.
Qed.

Lemma takeRun_all (p : ascii -> bool) (s : string) :
  allChars p s = true -> takeRun p s = (s, EmptyString).
Proof.
  induction s as [|c rest IH]; cbn [allChars takeRun]; [reflexivity|].
  intros H. apply andb_true_iff in H as [-> Hrest].
  rewrite IH by exact Hrest. reflexivity.
Qed.

(** C8 does not hold of the code.  What [tokenize] does with a run of digits
    and decimal points: apart from the lone point, the whole run becomes one
    NUMBER token, however many points it holds.  The run ["1.2.3"] is a
    NUMBER, which [evaluate] reads as 1.2; the run [".."] is a NUMBER, which
    [evaluate] reads as NaN; the lone point is the only rejected run. *)
Theorem tokenize_number_run (M : MathLib) (x : float) :
  (forall (c : ascii) (rest : string),
      allChars isNumberChar (String c rest) = true ->
      String c rest <> "." ->
      tokenize (String c rest)
      = Ok [mkToken NUMBER (String c rest) 0;
            mkToken EOF "" (String.length (String c rest))])
  /\ tokenize "1.2.3" = Ok [mkToken NUMBER "1.2.3" 0; mkToken EOF "" 5]
  /\ evaluate M "1.2.3" x = Ok 1.2%float
  /\ tokenize ".." = Ok [mkToken NUMBER ".." 0; mkToken EOF "" 2]
  /\ evaluate M ".." x = Ok PrimFloat.nan
  /\ tokenize "." = Err (InvalidNumberFormat 1).
Proof.
  split; [|repeat split; vm_compute; reflexivity].
  intros c rest Hall Hne. unfold tokenize.
  rewrite (removeWhitespace_number _ Hall).
  cbn [String.length scan].
  assert (isDigit c || isDot c = true) as ->.
  { cbn [allChars] in Hall. apply andb_true_iff in Hall. apply Hall. }
  change (fun c0 : ascii => isDigit c0 || isDot c0) with isNumberChar.
  rewrite (takeRun_all isNumberChar _ Hall).
  destruct (String.eqb_spec (String c rest) ".") as [Heq|_]; [contradiction|].
  destruct (String.length rest); cbn [scan bind push app];
    rewrite Nat.add_0_l, Nat.sub_diag; reflexivity.
Qed.

Lemma tokenize_number_run_witness :
  tokenize "1.2.3" = Ok [mkToken NUMBER "1.2.3" 0; mkToken EOF "" 5].
Proof.
  apply (proj1 (tokenize_number_run Sample.math 0) "1"%char ".2.3").
  - vm_compute. reflexivity.
  - discriminate.
Defined.

End Numbers.


(** * The lexer: layout, white space, identifiers *)

Module LexerLayout.

Import Lexer MathParser Spec TokenSpec.

Lemma length_append (s1 s2 : string) :
  String.length (s1 ++ s2) = String.length s1 + String.length s2.
Proof.
  induction s1 as [|c s1 IH]; cbn [append String.length]; [reflexivity|].
  rewrite IH. reflexivity.
Qed.

Lemma append_assoc (s1 s2 s3 : string) : (s1 ++ s2) ++ s3 = s1 ++ (s2 ++ s3).
Proof.
  induction s1 as [|c s1 IH]; cbn [append]; [reflexivity|].
  rewrite IH. reflexivity.
Qed.

Lemma append_nil_r (s : string) : s ++ "" = s.
Proof.
  induction s as [|c s IH]; cbn [append]; [reflexivity|].
  rewrite IH. reflexivity.
Qed.

Lemma takeRun_append (p : ascii -> bool) (s : string) :
  fst (takeRun p s) ++ snd (takeRun p s) = s.
Proof.
  induction s as [|c rest IH]; cbn [takeRun]; [reflexivity|].
  destruct (p c); [|reflexivity].
  destruct (takeRun p rest) as [run s']; cbn [fst snd append] in *.
  rewrite IH. reflexivity.
Qed.

Lemma spelling_app (l1 l2 : list token) :
  spelling (l1 ++ l2) = spelling l1 ++ spelling l2.
Proof.
  induction l1 as [|t l1 IH]; cbn [app spelling]; [reflexivity|].
  rewrite IH, append_assoc. reflexivity.
Qed.

Lemma laidOut_app (l1 l2 : list token) :
  forall i, laidOut i l1 ->
            laidOut (i + String.length (spelling l1)) l2 ->
            laidOut i (l1 ++ l2).
Proof.
  induction l1 as [|t l1 IH]; intros i H1 H2; cbn [app spelling laidOut] in *.
  - rewrite Nat.add_0_r in H2. exact H2.
  - destruct H1 as [Hpos H1]. split; [exact Hpos|].
    apply IH; [exact H1|]. rewrite length_append, Nat.add_assoc in H2. exact H2.
Qed.

(** What the scanning loop adds to the tokens it was given. *)
Lemma scan_layout (fuel : nat) :
  forall (s : string) (i : nat) (acc tokens : list token),
    scan fuel s i acc = Ok tokens ->
    exists new : list token,
      tokens = (acc ++ new)%list
      /\ spelling new = s
      /\ laidOut i new
      /\ forallb notEOF new = true.
Proof.
  induction fuel as [|fuel IH]; intros s i acc tokens Hscan.
  - destruct s; cbn [scan] in Hscan; [|discriminate].
    injection Hscan as <-. exists []. rewrite app_nil_r. repeat split.
  - destruct s as [|char rest]; cbn [scan] in Hscan.
    { injection Hscan as <-. exists []. rewrite app_nil_r. repeat split. }
    assert (forall (t : token) (s' : string),
               scan fuel s' (i + String.length (value t)) (push acc t) = Ok tokens ->
               pos t = i -> notEOF t = true ->
               value t ++ s' = String char rest ->
               exists new : list token,
                 tokens = (acc ++ new)%list
                 /\ spelling new = String char rest
                 /\ laidOut i new
                 /\ forallb notEOF new = true) as Hstep.
    { intros t s' Hrec Hpos Ht Htext.
      destruct (IH _ _ _ _ Hrec) as (new & -> & Hspell & Hlaid & Hall).
      exists (t :: new). unfold push. rewrite <- app_assoc.
      cbn [app spelling laidOut forallb]. rewrite Hspell, Ht.
      repeat split; assumption. }
    destruct (isDigit char || isDot char).
    { pose proof (takeRun_append (fun c => isDigit c || isDot c) (String char rest))
        as Happ.
      destruct (takeRun _ (String char rest)) as [numStr s']; cbn [fst snd] in Happ.
      destruct (numStr ==? "."); [discriminate|].
      apply (Hstep (mkToken NUMBER numStr (i + String.length numStr - String.length numStr)) s');
        cbn [value pos]; [exact Hscan|lia|reflexivity|exact Happ]. }
    destruct (isLetter char).
    { pose proof (takeRun_append isLetter (String char rest)) as Happ.
      destruct (takeRun isLetter (String char rest)) as [identifier s'];
        cbn [fst snd] in Happ.
      destruct (identifier ==? "x");
        [|destruct (has FUNCTIONS identifier);
          [|destruct (has CONSTANTS identifier); [|discriminate]]];
        (eapply (Hstep (mkToken _ identifier
                          (i + String.length identifier - String.length identifier)) s');
         cbn [value pos]; [exact Hscan|lia|reflexivity|exact Happ]). }
    replace (S i) with (i + String.length (String char "")) in Hscan
      by (cbn [String.length]; lia).
    destruct (hasChar OPERATORS char);
      [|destruct (Ascii.eqb char "(");
        [|destruct (Ascii.eqb char ")"); [|discriminate]]];
      (eapply (Hstep (mkToken _ (String char "") i) rest);
       cbn [value pos]; [exact Hscan|reflexivity|reflexivity|reflexivity]).
Qed.

(** X1.  The tokens of a formula spell the formula without its white space,
    each token stands at the offset of its text in it, and the stream ends
    with its only EOF token, which stands at the length of that text. *)
Theorem tokenize_layout (expression : string) (tokens : list token) :
  tokenize expression = Ok tokens ->
  spelling tokens = removeWhitespace expression
  /\ laidOut 0 tokens
  /\ exists front : list token,
       tokens
       = (front ++ [mkToken EOF "" (String.length (removeWhitespace expression))])%list
       /\ forallb notEOF front = true.
Proof.
  unfold tokenize. intros H.
  destruct (scan _ _ 0 []) as [front|e] eqn:Hscan; cbn [bind] in H;
    [|discriminate].
  injection H as <-.
  destruct (scan_layout _ _ _ _ _ Hscan) as (new & Hfront & Hspell & Hlaid & Hall).
  cbn [app] in Hfront. subst new. unfold push.
  split; [|split].
  - rewrite spelling_app, Hspell. cbn [spelling value append].
    apply append_nil_r.
  - apply laidOut_app; [exact Hlaid|].
    cbn [laidOut pos]. rewrite Hspell. split; [reflexivity|exact I].
  - exists front. split; [reflexivity|exact Hall].
Qed.

Lemma tokenize_layout_witness :
  spelling
    [mkToken FUNCTION "sin" 0; mkToken LPAREN "(" 3; mkToken VARIABLE "x" 4;
     mkToken RPAREN ")" 5; mkToken OPERATOR "+" 6; mkToken NUMBER "2.5" 7;
     mkToken EOF "" 10]
  = removeWhitespace " sin( x ) + 2.5".
Proof.
  apply (tokenize_layout " sin( x ) + 2.5"). vm_compute. reflexivity.
Defined.

Lemma removeWhitespace_space (s1 s2 : string) (c : ascii) :
  isSpace c = true ->
  removeWhitespace (s1 ++ String c s2) = removeWhitespace (s1 ++ s2).
Proof.
  intros Hc. induction s1 as [|d s1 IH]; cbn [append removeWhitespace].
  - rewrite Hc. reflexivity.
  - rewrite IH. reflexivity.
Qed.

Lemma removeWhitespace_clean (s : string) :
  allChars (fun c => negb (isSpace c)) (removeWhitespace s) = true.
Proof.
  induction s as [|c s IH]; cbn [removeWhitespace]; [reflexivity|].
  destruct (isSpace c) eqn:Hc; [exact IH|].
  cbn [allChars]. rewrite Hc, IH. reflexivity.
Qed.

Lemma removeWhitespace_idempotent (s : string) :
  removeWhitespace (removeWhitespace s) = removeWhitespace s.
Proof.
  pose proof (removeWhitespace_clean s) as H.
  induction (removeWhitespace s) as [|c r IH]; cbn [removeWhitespace];
    [reflexivity|].
  cbn [allChars] in H. apply andb_true_iff in H as [Hc Hr].
  apply negb_true_iff in Hc. rewrite Hc, IH by exact Hr. reflexivity.
Qed.

Lemma evaluate_of_tokenize (M : MathLib) (e1 e2 : string) (x : float) :
  tokenize e1 = tokenize e2 ->
  outcome (evaluate M e1 x) = outcome (evaluate M e2 x).
Proof.
  intros H. unfold evaluate. rewrite H.
  destruct (bind (tokenize e2) _) as [v|e]; reflexivity.
Qed.

(** X2.  White space carries no meaning, wherever it stands: a formula with
    a white-space character put in at any place, inside a number or a name
    as well, has the same tokens and the same value or failure; so has the
    formula with all its white space taken out. *)
Theorem whitespace_is_insignificant (M : MathLib) (x : float) :
  (forall (s1 s2 : string) (c : ascii),
      isSpace c = true ->
      tokenize (s1 ++ String c s2) = tokenize (s1 ++ s2)
      /\ outcome (evaluate M (s1 ++ String c s2) x)
         = outcome (evaluate M (s1 ++ s2) x))
  /\ (forall expression : string,
        tokenize (removeWhitespace expression) = tokenize expression
        /\ outcome (evaluate M (removeWhitespace expression) x)
           = outcome (evaluate M expression x)).
Proof.
  split.
  - intros s1 s2 c Hc.
    assert (tokenize (s1 ++ String c s2) = tokenize (s1 ++ s2)) as Htok.
    { unfold tokenize. rewrite (removeWhitespace_space s1 s2 c Hc). reflexivity. }
    split; [exact Htok|]. apply evaluate_of_tokenize. exact Htok.
  - intros expression.
    assert (tokenize (removeWhitespace expression) = tokenize expression) as Htok.
    { unfold tokenize. rewrite removeWhitespace_idempotent. reflexivity. }
    split; [exact Htok|]. apply evaluate_of_tokenize. exact Htok.
Qed.

Lemma whitespace_is_insignificant_witness :
  tokenize ("1" ++ String " " "2*x") = tokenize ("1" ++ "2*x")
  /\ outcome (evaluate Sample.math ("1" ++ String " " "2*x") 2)
     = outcome (evaluate Sample.math ("1" ++ "2*x") 2).
Proof.
  apply (proj1 (whitespace_is_insignificant Sample.math 2) "1" "2*x" " "%char).
  vm_compute. reflexivity.
Defined.

Lemma takeRun_stop (p : ascii -> bool) (run rest : string) :
  allChars p run = true ->
  match rest with EmptyString => true | String c _ => negb (p c) end = true ->
  takeRun p (run ++ rest) = (run, rest).
Proof.
  intros Hrun Hrest. induction run as [|c run IH]; cbn [append].
  - destruct rest as [|c rest]; cbn [takeRun]; [reflexivity|].
    apply negb_true_iff in Hrest. rewrite Hrest. reflexivity.
  - cbn [allChars] in Hrun. apply andb_true_iff in Hrun as [Hc Hrun].
    cbn [takeRun]. rewrite Hc, (IH Hrun). reflexivity.
Qed.

(** X3.  A formula whose text, white space taken out, begins with a run of
    letters that is neither [x], nor a function name, nor a constant name, is
    rejected with that whole run as an unknown identifier at position 0: names
    are never split, so [xx], [sinx] or [Math.exp(x)] are not formulas.  The
    formula then has no value at any [x] and is not a valid expression. *)
Theorem unknown_identifier (M : MathLib) (expression identifier rest : string)
  (c : ascii) (x : float) :
  removeWhitespace expression = String c identifier ++ rest ->
  allChars isLetter (String c identifier) = true ->
  stopsLetters rest = true ->
  (String c identifier ==? "x") = false ->
  has FUNCTIONS (String c identifier) = false ->
  has CONSTANTS (String c identifier) = false ->
  tokenize expression = Err (UnknownIdentifier (String c identifier) 0)
  /\ evaluate M expression x
     = Err (InvalidExpression expression (UnknownIdentifier (String c identifier) 0))
  /\ isValidExpression M expression = false.
Proof.
  intros Htext Hletters Hstop Hx Hfun Hconst.
  assert (tokenize expression = Err (UnknownIdentifier (String c identifier) 0))
    as Htok.
  { unfold tokenize. rewrite Htext.
    pose proof (takeRun_stop isLetter (String c identifier) rest Hletters Hstop)
      as Hrun.
    cbn [append] in *. cbn [String.length scan].
    assert (isDigit c || isDot c = false) as ->.
    { cbn [allChars] in Hletters. apply andb_true_iff in Hletters as [Hc _].
      unfold isLetter, isDigit, isDot, code in *.
      destruct (Ascii.eqb_spec c "."%char) as [->|_]; [discriminate|].
      rewrite orb_false_r. apply andb_false_iff.
      apply orb_true_iff in Hc as [Hc|Hc]; apply andb_true_iff in Hc as [Hlo Hhi];
        apply Nat.leb_le in Hlo, Hhi; right; apply Nat.leb_gt; lia. }
    assert (isLetter c = true) as ->.
    { cbn [allChars] in Hletters. apply andb_true_iff in Hletters. apply Hletters. }
    rewrite Hrun, Hx, Hfun, Hconst. cbn [bind].
    rewrite Nat.add_0_l, Nat.sub_diag. reflexivity. }
  split; [exact Htok|].
  assert (evaluate M expression x
          = Err (InvalidExpression expression
                   (UnknownIdentifier (String c identifier) 0))) as Heval.
  { unfold evaluate. rewrite Htok. reflexivity. }
  split; [exact Heval|].
  unfold isValidExpression, evaluate. rewrite Htok. reflexivity.
Qed.

Lemma unknown_identifier_witness :
  tokenize "Math.exp(x)" = Err (UnknownIdentifier "Math" 0)
  /\ evaluate Sample.math "Math.exp(x)" 1
     = Err (InvalidExpression "Math.exp(x)" (UnknownIdentifier "Math" 0))
  /\ isValidExpression Sample.math "Math.exp(x)" = false.
Proof.
  apply (unknown_identifier Sample.math "Math.exp(x)" "ath" ".exp(x)" "M"%char 1);
    vm_compute; reflexivity.
Defined.

Lemma removeWhitespace_blank (s : string) :
  allChars isSpace s = true -> removeWhitespace s = EmptyString.
Proof.
  induction s as [|c s IH]; cbn [allChars removeWhitespace]; [reflexivity|].
  intros H. apply andb_true_iff in H as [-> Hs]. apply IH. exact Hs.
Qed.

(** X4.  The empty formula, and any formula made of white space only, has no
    value: its token stream is the EOF token alone, at position 0, and
    [evaluate] fails on it as an unexpected token; it is not a valid
    expression, and sampling it gives no point. *)
Theorem blank_formula (M : MathLib) (expression : string) (x : float) :
  allChars isSpace expression = true ->
  tokenize expression = Ok [mkToken EOF "" 0]
  /\ evaluate M expression x
     = Err (InvalidExpression expression (UnexpectedTokenAt "" 0))
  /\ isValidExpression M expression = false.
Proof.
  intros Hblank.
  assert (tokenize expression = Ok [mkToken EOF "" 0]) as Htok.
  { unfold tokenize. rewrite (removeWhitespace_blank _ Hblank). reflexivity. }
  split; [exact Htok|].
  unfold isValidExpression, evaluate. rewrite Htok. split; reflexivity.
Qed.

Lemma blank_formula_witness :
  evaluate Sample.math "" 0 = Err (InvalidExpression "" (UnexpectedTokenAt "" 0))
  /\ evaluate Sample.math "   " 0
     = Err (InvalidExpression "   " (UnexpectedTokenAt "" 0)).
Proof.
  split.
  - apply (blank_formula Sample.math "" 0). reflexivity.
  - apply (blank_formula Sample.math "   " 0). reflexivity.
Defined.

(** The tokens of the scanning loop carry the values their types allow. *)
Lemma has_operator (c : ascii) :
  hasChar OPERATORS c = true -> has ["+"; "-"; "*"; "/"; "^"] (String c "") = true.
Proof.
  destruct c as [b0 b1 b2 b3 b4 b5 b6 b7].
  destruct b0, b1, b2, b3, b4, b5, b6, b7; intros H;
    first [reflexivity | discriminate H].
Qed.

Lemma scan_wellTyped (fuel : nat) :
  forall (s : string) (i : nat) (acc tokens : list token),
    forallb wellTyped acc = true ->
    scan fuel s i acc = Ok tokens ->
    forallb wellTyped tokens = true.
Proof.
  induction fuel as [|fuel IH]; intros s i acc tokens Hacc Hscan.
  - destruct s; cbn [scan] in Hscan; [|discriminate].
    injection Hscan as <-. exact Hacc.
  - destruct s as [|char rest]; cbn [scan] in Hscan.
    { injection Hscan as <-. exact Hacc. }
    assert (forall t : token, wellTyped t = true ->
                              forallb wellTyped (push acc t) = true) as Hpush.
    { intros t Ht. unfold push. rewrite forallb_app, Hacc. cbn [forallb].
      rewrite Ht. reflexivity. }
    destruct (isDigit char || isDot char).
    { destruct (takeRun _ (String char rest)) as [numStr s'].
      destruct (numStr ==? "."); [discriminate|].
      eapply IH; [|exact Hscan]. apply Hpush. reflexivity. }
    destruct (isLetter char).
    { destruct (takeRun isLetter (String char rest)) as [identifier s'].
      destruct (identifier ==? "x");
        [eapply IH; [|exact Hscan]; apply Hpush; reflexivity|].
      destruct (has FUNCTIONS identifier) eqn:Hfun;
        [eapply IH; [|exact Hscan]; apply Hpush; exact Hfun|].
      destruct (has CONSTANTS identifier) eqn:Hconst; [|discriminate].
      eapply IH; [|exact Hscan]. apply Hpush. exact Hconst. }
    destruct (hasChar OPERATORS char) eqn:Hop.
    { eapply IH; [|exact Hscan]. apply Hpush. unfold wellTyped.
      cbn [type value]. apply has_operator. exact Hop. }
    destruct (Ascii.eqb char "(");
      [eapply IH; [|exact Hscan]; apply Hpush; reflexivity|].
    destruct (Ascii.eqb char ")"); [|discriminate].
    eapply IH; [|exact Hscan]. apply Hpush. reflexivity.
Qed.

Lemma tokenize_wellTyped (expression : string) (tokens : list token) :
  tokenize expression = Ok tokens -> forallb wellTyped tokens = true.
Proof.
  unfold tokenize. destruct (scan _ _ 0 []) as [front|e] eqn:Hscan;
    cbn [bind]; [|discriminate].
  intros H. injection H as <-. unfold push. rewrite forallb_app.
  rewrite (scan_wellTyped _ _ _ _ _ (eq_refl : forallb wellTyped [] = true) Hscan).
  reflexivity.
Qed.

End LexerLayout.

(** * The parser on the streams of the lexer *)

Module ParserInvariants.

Import Lexer ExpressionParser MathParser Spec TokenSpec.

Lemma neverDefensive_bind {A B : Type} (r : result A) (k : A -> result B) :
  neverDefensive r -> (forall a, neverDefensive (k a)) ->
  neverDefensive (bind r k).
Proof.
  destruct r as [a|e]; cbn [bind neverDefensive]; auto.
Qed.

Lemma bind_ext {A B : Type} (r1 r2 : result A) (k1 k2 : A -> result B) :
  r1 = r2 -> (forall a, k1 a = k2 a) -> bind r1 k1 = bind r2 k2.
Proof.
  intros -> Hk. destruct r2 as [a|e]; cbn [bind]; [apply Hk|reflexivity].
Qed.

Section Streams.

Variable M : MathLib.
Variable tokens : list token.

Lemma tokenAt_forallb (p : token -> bool) (current : nat) :
  forallb p tokens = true -> current < List.length tokens ->
  p (tokenAt tokens current) = true.
Proof.
  intros Hall Hlt. rewrite forallb_forall in Hall. apply Hall.
  unfold tokenAt. apply nth_In. exact Hlt.
Qed.

(** The two ways a [match] goes. *)
Lemma match_cases (ty : TokenType) (current : nat) :
  (match_ tokens ty current = (true, S current)
   /\ current < List.length tokens
   /\ type (tokenAt tokens current) = ty)
  \/ (match_ tokens ty current = (false, current)
      /\ check tokens ty current = false).
Proof.
  destruct (ParserFacts.match_spec tokens ty current) as [H|H]; [left; exact H|].
  right. split; [exact H|]. unfold match_ in H.
  destruct (check tokens ty current); [discriminate|reflexivity].
Qed.

Lemma evaluateFunction_known (functionName : string) (argument : float) :
  has FUNCTIONS functionName = true ->
  neverDefensive (evaluateFunction M functionName argument).
Proof.
  unfold has, FUNCTIONS, evaluateFunction. cbn [existsb]. intros H.
  repeat match goal with
         | |- neverDefensive (if ?b then _ else _) => destruct b eqn:?
         end; cbn [neverDefensive defensive]; try reflexivity.
  cbn [orb] in H. discriminate H.
Qed.

Local Ltac split_cases ty current :=
  let H := fresh "Hm" in
  destruct (match_cases ty current) as [(H & ? & ?)|(H & ?)]; rewrite H.

Section Typed.

Variable x : float.
Hypothesis Htyped : forallb wellTyped tokens = true.

(** On a stream of the lexer no method ends in a defensive branch. *)
Lemma parse_neverDefensive (fuel : nat) :
  (forall current, neverDefensive (parsePrimary M tokens x fuel current))
  /\ (forall current, neverDefensive (parseUnary M tokens x fuel current))
  /\ (forall current, neverDefensive (parseExponentiation M tokens x fuel current))
  /\ (forall expr current,
        neverDefensive (multiplicationLoop M tokens x fuel expr current))
  /\ (forall current, neverDefensive (parseMultiplication M tokens x fuel current))
  /\ (forall expr current,
        neverDefensive (additionLoop M tokens x fuel expr current))
  /\ (forall current, neverDefensive (parseAddition M tokens x fuel current))
  /\ (forall current, neverDefensive (parseExpression M tokens x fuel current)).
Proof.
  induction fuel as [|fuel (IHprimary & IHunary & IHexp & IHmulLoop & IHmul
                             & IHaddLoop & IHadd & IHexpr)].
  { repeat split; intros; reflexivity. }
  repeat split.
  - (* parsePrimary *)
    intros current. cbn [parsePrimary].
    split_cases NUMBER current; [exact I|].
    split_cases VARIABLE current; [exact I|].
    split_cases CONSTANT current.
    { pose proof (tokenAt_forallb wellTyped current Htyped ltac:(assumption))
        as Hwt.
      unfold wellTyped in Hwt.
      match goal with H : type _ = CONSTANT |- _ => rewrite H in Hwt end.
      unfold previous. cbn [Nat.sub]. rewrite Nat.sub_0_r.
      unfold has, CONSTANTS in Hwt. cbn [existsb] in Hwt.
      destruct (_ ==? "e"); [exact I|].
      destruct (_ ==? "pi"); [exact I|]. discriminate Hwt. }
    split_cases FUNCTION current.
    { pose proof (tokenAt_forallb wellTyped current Htyped ltac:(assumption))
        as Hwt.
      unfold wellTyped in Hwt.
      match goal with H : type _ = FUNCTION |- _ => rewrite H in Hwt end.
      unfold previous. cbn [Nat.sub]. rewrite Nat.sub_0_r.
      split_cases LPAREN (S current); cbn [negb]; [|reflexivity].
      apply neverDefensive_bind; [apply IHexpr|].
      intros [argument c].
      split_cases RPAREN c; cbn [negb]; [|reflexivity].
      apply neverDefensive_bind; [|intros v; exact I].
      apply evaluateFunction_known. exact Hwt. }
    split_cases LPAREN current.
    { apply neverDefensive_bind; [apply IHexpr|].
      intros [v c]. split_cases RPAREN c; cbn [negb]; [exact I|reflexivity]. }
    repeat match goal with
           | H : check _ _ _ = false |- _ => rewrite H; clear H
           end.
    reflexivity.
  - (* parseUnary *)
    intros current. cbn [parseUnary].
    split_cases OPERATOR current; [|apply IHprimary].
    pose proof (tokenAt_forallb wellTyped current Htyped ltac:(assumption))
      as Hwt.
    unfold wellTyped in Hwt.
    match goal with H : type _ = OPERATOR |- _ => rewrite H in Hwt end.
    unfold previous. cbn [Nat.sub]. rewrite Nat.sub_0_r.
    unfold has in Hwt. cbn [existsb] in Hwt.
    destruct (_ ==? "-") eqn:Hminus.
    { apply neverDefensive_bind; [apply IHunary|]. intros [v c]. exact I. }
    destruct (_ ==? "+") eqn:Hplus; [apply IHunary|].
    cbn [neverDefensive defensive]. unfold has. cbn [existsb].
    cbn [orb] in Hwt. rewrite Hwt. reflexivity.
  - (* parseExponentiation *)
    intros current. cbn [parseExponentiation].
    apply neverDefensive_bind; [apply IHunary|].
    intros [v c]. split_cases OPERATOR c; [|exact I].
    destruct (_ ==? "^"); [|exact I].
    apply neverDefensive_bind; [apply IHexp|]. intros [r c']. exact I.
  - (* multiplicationLoop *)
    intros expr current. cbn [multiplicationLoop].
    split_cases OPERATOR current; [|exact I].
    destruct (_ || _); [|exact I].
    apply neverDefensive_bind; [apply IHexp|].
    intros [r c]. destruct (_ && _); [reflexivity|apply IHmulLoop].
  - (* parseMultiplication *)
    intros current. cbn [parseMultiplication].
    apply neverDefensive_bind; [apply IHexp|].
    intros [v c]. apply IHmulLoop.
  - (* additionLoop *)
    intros expr current. cbn [additionLoop].
    split_cases OPERATOR current; [|exact I].
    destruct (_ || _); [|exact I].
    apply neverDefensive_bind; [apply IHmul|].
    intros [r c]. apply IHaddLoop.
  - (* parseAddition *)
    intros current. cbn [parseAddition].
    apply neverDefensive_bind; [apply IHmul|].
    intros [v c]. apply IHaddLoop.
  - (* parseExpression *)
    intros current. cbn [parseExpression]. apply IHadd.
Qed.

End Typed.

Section Constant.

Variables x1 x2 : float.
Hypothesis Hconstant : forallb notVariable tokens = true.

(** On a stream without the VARIABLE no method looks at the bound value. *)
Lemma parse_constant (fuel : nat) :
  (forall current, parsePrimary M tokens x1 fuel current
                   = parsePrimary M tokens x2 fuel current)
  /\ (forall current, parseUnary M tokens x1 fuel current
                      = parseUnary M tokens x2 fuel current)
  /\ (forall current, parseExponentiation M tokens x1 fuel current
                      = parseExponentiation M tokens x2 fuel current)
  /\ (forall expr current, multiplicationLoop M tokens x1 fuel expr current
                           = multiplicationLoop M tokens x2 fuel expr current)
  /\ (forall current, parseMultiplication M tokens x1 fuel current
                      = parseMultiplication M tokens x2 fuel current)
  /\ (forall expr current, additionLoop M tokens x1 fuel expr current
                           = additionLoop M tokens x2 fuel expr current)
  /\ (forall current, parseAddition M tokens x1 fuel current
                      = parseAddition M tokens x2 fuel current)
  /\ (forall current, parseExpression M tokens x1 fuel current
                      = parseExpression M tokens x2 fuel current).
Proof.
  induction fuel as [|fuel (IHprimary & IHunary & IHexp & IHmulLoop & IHmul
                             & IHaddLoop & IHadd & IHexpr)].
  { repeat split; intros; reflexivity. }
  repeat split.
  - (* parsePrimary *)
    intros current. cbn [parsePrimary].
    split_cases NUMBER current; [reflexivity|].
    split_cases VARIABLE current.
    { pose proof (tokenAt_forallb notVariable current Hconstant ltac:(assumption))
        as Hnv.
      unfold notVariable in Hnv.
      match goal with H : type _ = VARIABLE |- _ => rewrite H in Hnv end.
      discriminate Hnv. }
    destruct (match_ tokens CONSTANT current) as [[|] c3]; [reflexivity|].
    destruct (match_ tokens FUNCTION c3) as [[|] c4].
    { destruct (match_ tokens LPAREN c4) as [[|] c5]; cbn [negb];
        [|reflexivity].
      apply bind_ext; [apply IHexpr|reflexivity]. }
    destruct (match_ tokens LPAREN c4) as [[|] c5]; [|reflexivity].
    apply bind_ext; [apply IHexpr|reflexivity].
  - (* parseUnary *)
    intros current. cbn [parseUnary].
    destruct (match_ tokens OPERATOR current) as [[|] c1]; [|apply IHprimary].
    destruct (_ ==? "-"); [apply bind_ext; [apply IHunary|reflexivity]|].
    destruct (_ ==? "+"); [apply IHunary|reflexivity].
  - (* parseExponentiation *)
    intros current. cbn [parseExponentiation].
    apply bind_ext; [apply IHunary|].
    intros [v c]. destruct (match_ tokens OPERATOR c) as [[|] c1]; [|reflexivity].
    destruct (_ ==? "^"); [|reflexivity].
    apply bind_ext; [apply IHexp|reflexivity].
  - (* multiplicationLoop *)
    intros expr current. cbn [multiplicationLoop].
    destruct (match_ tokens OPERATOR current) as [[|] c1]; [|reflexivity].
    destruct (_ || _); [|reflexivity].
    apply bind_ext; [apply IHexp|].
    intros [r c]. destruct (_ && _); [reflexivity|apply IHmulLoop].
  - (* parseMultiplication *)
    intros current. cbn [parseMultiplication].
    apply bind_ext; [apply IHexp|]. intros [v c]. apply IHmulLoop.
  - (* additionLoop *)
    intros expr current. cbn [additionLoop].
    destruct (match_ tokens OPERATOR current) as [[|] c1]; [|reflexivity].
    destruct (_ || _); [|reflexivity].
    apply bind_ext; [apply IHmul|]. intros [r c]. apply IHaddLoop.
  - (* parseAddition *)
    intros current. cbn [parseAddition].
    apply bind_ext; [apply IHmul|]. intros [v c]. apply IHaddLoop.
  - (* parseExpression *)
    intros current. cbn [parseExpression]. apply IHadd.
Qed.

End Constant.

End Streams.

Section Bounded.

Variable M : MathLib.
Variable tokens : list token.
Variable x : float.
Variable front : list token.
Variable p : nat.
Hypothesis Hstream : tokens = (front ++ [mkToken EOF "" p])%list.

Lemma matched_in_range (ty : TokenType) (current : nat) :
  match_ tokens ty current = (true, S current) ->
  current < List.length tokens ->
  S current < List.length tokens.
Proof.
  intros Hm Hlt.
  pose proof (ParserFacts.advance_in_range tokens front p current Hstream Hlt)
    as Hadv.
  unfold match_ in Hm. destruct (check tokens ty current) eqn:Hcheck;
    [|discriminate].
  unfold check in Hcheck. unfold advance in Hadv.
  destruct (isAtEnd tokens current); [discriminate|exact Hadv].
Qed.

Lemma inRange_bind (r : result (float * nat))
  (k : float * nat -> result (float * nat)) :
  inRange tokens r ->
  (forall v current, current < List.length tokens ->
     inRange tokens (k (v, current))) ->
  inRange tokens (bind r k).
Proof.
  destruct r as [[v current]|e]; cbn [bind inRange]; auto.
Qed.

Local Ltac split_range ty current :=
  let H := fresh "Hm" in
  destruct (match_cases tokens ty current) as [(H & ? & ?)|(H & ?)];
  [pose proof (matched_in_range ty current H ltac:(assumption))|];
  rewrite H.

(** On a stream that ends with an EOF token a method started inside the
    stream leaves its cursor inside the stream. *)
Lemma parse_in_range (fuel : nat) :
  (forall current, current < List.length tokens ->
     inRange tokens (parsePrimary M tokens x fuel current))
  /\ (forall current, current < List.length tokens ->
     inRange tokens (parseUnary M tokens x fuel current))
  /\ (forall current, current < List.length tokens ->
     inRange tokens (parseExponentiation M tokens x fuel current))
  /\ (forall expr current, current < List.length tokens ->
     inRange tokens (multiplicationLoop M tokens x fuel expr current))
  /\ (forall current, current < List.length tokens ->
     inRange tokens (parseMultiplication M tokens x fuel current))
  /\ (forall expr current, current < List.length tokens ->
     inRange tokens (additionLoop M tokens x fuel expr current))
  /\ (forall current, current < List.length tokens ->
     inRange tokens (parseAddition M tokens x fuel current))
  /\ (forall current, current < List.length tokens ->
     inRange tokens (parseExpression M tokens x fuel current)).
Proof.
  induction fuel as [|fuel (IHprimary & IHunary & IHexp & IHmulLoop & IHmul
                             & IHaddLoop & IHadd & IHexpr)].
  { repeat split; intros; exact I. }
  repeat split.
  - (* parsePrimary *)
    intros current Hlt. cbn [parsePrimary].
    split_range NUMBER current; [assumption|].
    split_range VARIABLE current; [assumption|].
    split_range CONSTANT current.
    { repeat match goal with
             | |- inRange _ (if ?b then _ else _) => destruct b
             end; cbn [inRange]; auto. }
    split_range FUNCTION current.
    { split_range LPAREN (S current); cbn [negb]; [|exact I].
      apply inRange_bind; [apply IHexpr; assumption|].
      intros v c Hc. split_range RPAREN c; cbn [negb]; [|exact I].
      destruct (evaluateFunction _ _ _); cbn [bind inRange]; auto. }
    split_range LPAREN current.
    { apply inRange_bind; [apply IHexpr; assumption|].
      intros v c Hc. split_range RPAREN c; cbn [negb inRange]; auto. }
    destruct (check _ _ _ || check _ _ _); exact I.
  - (* parseUnary *)
    intros current Hlt. cbn [parseUnary].
    split_range OPERATOR current; [|apply IHprimary; assumption].
    destruct (_ ==? "-").
    { apply inRange_bind; [apply IHunary; assumption|].
      intros v c Hc. exact Hc. }
    destruct (_ ==? "+"); [apply IHunary; assumption|exact I].
  - (* parseExponentiation *)
    intros current Hlt. cbn [parseExponentiation].
    apply inRange_bind; [apply IHunary; assumption|].
    intros v c Hc. split_range OPERATOR c; [|exact Hc].
    destruct (_ ==? "^").
    + apply inRange_bind; [apply IHexp; assumption|].
      intros r c' Hc'. exact Hc'.
    + cbn [inRange Nat.sub]. rewrite Nat.sub_0_r. exact Hc.
  - (* multiplicationLoop *)
    intros expr current Hlt. cbn [multiplicationLoop].
    split_range OPERATOR current; [|exact Hlt].
    destruct (_ || _).
    + apply inRange_bind; [apply IHexp; assumption|].
      intros r c Hc. destruct (_ && _); [exact I|apply IHmulLoop; exact Hc].
    + cbn [inRange Nat.sub]. rewrite Nat.sub_0_r. exact Hlt.
  - (* parseMultiplication *)
    intros current Hlt. cbn [parseMultiplication].
    apply inRange_bind; [apply IHexp; assumption|].
    intros v c Hc. apply IHmulLoop. exact Hc.
  - (* additionLoop *)
    intros expr current Hlt. cbn [additionLoop].
    split_range OPERATOR current; [|exact Hlt].
    destruct (_ || _).
    + apply inRange_bind; [apply IHmul; assumption|].
      intros r c Hc. apply IHaddLoop. exact Hc.
    + cbn [inRange Nat.sub]. rewrite Nat.sub_0_r. exact Hlt.
  - (* parseAddition *)
    intros current Hlt. cbn [parseAddition].
    apply inRange_bind; [apply IHmul; assumption|].
    intros v c Hc. apply IHaddLoop. exact Hc.
  - (* parseExpression *)
    intros current Hlt. cbn [parseExpression]. apply IHadd. exact Hlt.
Qed.

End Bounded.

(** X17.  The parser never runs off the token array: on the stream of any
    formula, whatever the step budget, the cursor that [parseExpression]
    leaves is an index of the stream, so that the token [evaluate] reads
    there to test for trailing input exists. *)
Theorem cursor_stays_in_stream (M : MathLib) (expression : string)
  (tokens : list token) (x : float) (fuel : nat) :
  tokenize expression = Ok tokens ->
  inRange tokens (parseExpression M tokens x fuel 0).
Proof.
  intros Htok.
  destruct (LexerFacts.tokenize_ends_with_EOF _ _ Htok) as (front & p & Hstream).
  destruct (parse_in_range M tokens x front p Hstream fuel)
    as (_ & _ & _ & _ & _ & _ & _ & H).
  apply H. rewrite Hstream, length_app. cbn [List.length]. lia.
Qed.

Lemma cursor_stays_in_stream_witness :
  inRange Spec.one_over_x
    (parseExpression Sample.math Spec.one_over_x 2 (budget Spec.one_over_x) 0).
Proof.
  apply (cursor_stays_in_stream Sample.math "1/x" Spec.one_over_x 2).
  vm_compute. reflexivity.
Defined.

(** X5.  [evaluate] never fails through one of its defensive branches: an
    unknown function, an unknown constant, the implicit-multiplication test
    of [parsePrimary], or a unary operator other than [*], [/] and [^].  The
    lexer only hands over function and constant names the parser knows, and
    only the five operators. *)
Theorem evaluate_never_defensive (M : MathLib) (expression : string) (x : float) :
  neverDefensive (outcome (evaluate M expression x)).
Proof.
  unfold evaluate.
  destruct (tokenize expression) as [tokens|e] eqn:Htok; cbn [bind].
  - pose proof (LexerLayout.tokenize_wellTyped _ _ Htok) as Htyped.
    destruct (parse_neverDefensive M tokens x Htyped (budget tokens))
      as (_ & _ & _ & _ & _ & _ & _ & H).
    specialize (H 0).
    destruct (parseExpression M tokens x (budget tokens) 0) as [[v c]|e];
      cbn [bind].
    + destruct (negb (isAtEnd tokens c)); cbn [outcome neverDefensive defensive];
        [reflexivity|exact I].
    + exact H.
  - cbn [outcome neverDefensive]. unfold tokenize in Htok.
    destruct (scan _ _ 0 []) as [front|e'] eqn:Hscan; cbn [bind] in Htok;
      [discriminate|]. injection Htok as <-.
    revert Hscan. generalize (@nil token) 0.
    generalize (removeWhitespace expression) at 2.
    induction (String.length (removeWhitespace expression)) as [|fuel IH];
      intros s acc i Hscan.
    + destruct s; cbn [scan] in Hscan; [discriminate|].
      injection Hscan as <-. reflexivity.
    + destruct s as [|char rest]; cbn [scan] in Hscan; [discriminate|].
      repeat match type of Hscan with
             | (let (_, _) := ?p in _) = _ => destruct p
             | (if ?b then _ else _) = _ => destruct b
             end;
        try (injection Hscan as <-; reflexivity);
        eapply IH; exact Hscan.
Qed.

(** X6.  A formula whose stream has no VARIABLE token has the same value, or
    the same failure, at every [x]. *)
Theorem evaluate_constant_formula (M : MathLib) (expression : string)
  (x1 x2 : float) :
  mentionsNoVariable expression = true ->
  evaluate M expression x1 = evaluate M expression x2.
Proof.
  unfold mentionsNoVariable, evaluate.
  destruct (tokenize expression) as [tokens|e]; cbn [bind]; [|reflexivity].
  intros Hconstant.
  destruct (parse_constant M tokens x1 x2 Hconstant (budget tokens))
    as (_ & _ & _ & _ & _ & _ & _ & H).
  rewrite (H 0). reflexivity.
Qed.

Lemma evaluate_constant_formula_witness :
  evaluate Sample.math "2*exp(1)+pi" 0 = evaluate Sample.math "2*exp(1)+pi" 7.
Proof.
  apply (evaluate_constant_formula Sample.math "2*exp(1)+pi" 0 7).
  vm_compute. reflexivity.
Defined.

End ParserInvariants.

(** * The calculus layer beyond the claims *)

Module CalculusFacts.

Import Lexer MathParser MathCalculations Spec Loops.

Local Open Scope Z_scope.

Lemma flat_map_nil {A B : Type} (f : A -> list B) (l : list A) :
  (forall a, f a = []) -> flat_map f l = [].
Proof.
  intros Hf. induction l as [|a l IH]; cbn [flat_map]; [reflexivity|].
  rewrite Hf, IH. reflexivity.
Qed.

Lemma flat_map_short {A B : Type} (f : A -> list B) (l : list A) :
  (forall a, (List.length (f a) <= 1)%nat) ->
  (List.length (flat_map f l) <= List.length l)%nat.
Proof.
  intros Hf. induction l as [|a l IH]; cbn [flat_map List.length]; [lia|].
  rewrite length_app. specialize (Hf a). lia.
Qed.

Lemma countFrom_length (k : nat) : forall i, List.length (countFrom i k) = k.
Proof.
  induction k as [|k IH]; intros i; cbn [countFrom List.length];
    [reflexivity|]. rewrite IH. reflexivity.
Qed.

Lemma derivativePointsLoop_flat_map (M : MathLib) (expression : string)
  (xMin stepSize : float) (k : nat) :
  forall (i : Z) (points : list point),
    derivativePointsLoop M expression xMin stepSize k i points
    = (points ++ flat_map (derivativeSampleAt M expression xMin stepSize)
                   (countFrom i k))%list.
Proof.
  induction k as [|k IH]; intros i points;
    cbn [derivativePointsLoop countFrom flat_map].
  - rewrite app_nil_r. reflexivity.
  - rewrite IH. unfold derivativeSampleAt at 2.
    destruct (error (calculateDerivative M expression _ default_h));
      [reflexivity|].
    destruct (isFinite (value (calculateDerivative M expression _ default_h)));
      [|reflexivity].
    rewrite <- app_assoc. reflexivity.
Qed.

(** X7.  [calculateDerivativePoints] goes through the indices [0 .. steps]
    and keeps, by increasing index, the points [(x_i, d_i)] whose derivative
    estimate [d_i] at [x_i = xMin + i * ((xMax - xMin) / steps)] has no error
    and is finite.  Neither sampler returns more than [steps + 1] points, and
    with a negative [steps] both return none. *)
Theorem derivative_points (M : MathLib) (expression : string)
  (xMin xMax : float) (steps : Z) :
  calculateDerivativePoints M expression xMin xMax steps
  = flat_map
      (derivativeSampleAt M expression xMin ((xMax - xMin) / numberOfZ steps)%float)
      (countFrom 0 (Z.to_nat (steps + 1)))
  /\ (List.length (calculateDerivativePoints M expression xMin xMax steps)
      <= Z.to_nat (steps + 1))%nat
  /\ (List.length (generatePoints M expression xMin xMax steps)
      <= Z.to_nat (steps + 1))%nat
  /\ (steps < 0 ->
      calculateDerivativePoints M expression xMin xMax steps = []
      /\ generatePoints M expression xMin xMax steps = []).
Proof.
  assert (calculateDerivativePoints M expression xMin xMax steps
          = flat_map
              (derivativeSampleAt M expression xMin
                 ((xMax - xMin) / numberOfZ steps)%float)
              (countFrom 0 (Z.to_nat (steps + 1)))) as Hd
    by (unfold calculateDerivativePoints; apply derivativePointsLoop_flat_map).
  split; [exact Hd|]. split; [|split].
  - rewrite Hd.
    rewrite <- (countFrom_length (Z.to_nat (steps + 1)) 0) at 2.
    apply flat_map_short. intros i. unfold derivativeSampleAt.
    destruct (error _); [cbn; lia|]. destruct (isFinite _); cbn; lia.
  - rewrite Sampler.generatePoints_flat_map.
    rewrite <- (countFrom_length (Z.to_nat (steps + 1)) 0) at 2.
    apply flat_map_short. intros i. unfold sampleAt.
    destruct (evaluate _ _ _) as [y|e]; [|cbn; lia].
    destruct (isFinite y); cbn; lia.
  - intros Hneg. rewrite Hd, Sampler.generatePoints_flat_map.
    replace (Z.to_nat (steps + 1)) with O by lia. split; reflexivity.
Qed.

Lemma derivative_points_witness :
  calculateDerivativePoints Sample.math "x*x" 0 1 (-3) = []
  /\ generatePoints Sample.math "x*x" 0 1 (-3) = [].
Proof.
  apply (derivative_points Sample.math "x*x" 0 1 (-3)). reflexivity.
Defined.

Lemma riemannLoop_terms (M : MathLib) (expression : string) (a dx : float)
  (k : nat) :
  forall (i : Z) (sum : float) (rects : list rectangle),
    riemannLoop M expression a dx k i sum rects
    = mkRiemann
        (fold_left (fun s xh => (s + snd xh * dx)%float)
           (midpointValues M expression a dx (countFrom i k)) sum)
        (rects ++ map (rectangleOf dx)
                    (midpointValues M expression a dx (countFrom i k)))%list.
Proof.
  induction k as [|k IH]; intros i sum rects;
    cbn [riemannLoop countFrom midpointValues flat_map fold_left map].
  - rewrite app_nil_r. reflexivity.
  - fold (midpointValues M expression a dx (countFrom (i + 1) k)).
    destruct (evaluate M expression _) as [height|e]; rewrite IH;
      cbn [app fold_left map]; [|reflexivity].
    rewrite <- app_assoc. reflexivity.
Qed.

(** X8.  The midpoint rule: [calculateRiemannSum] draws one rectangle for
    each of the [n] subintervals whose midpoint has a value, by increasing
    index, of width [dx = (b - a) / n], anchored at [min(0, height)] with the
    magnitude [abs(height)]; its value adds [height * dx] over the same
    subintervals, from 0 on; a subinterval whose midpoint has no value is
    left out of both.  There are at most [n] rectangles, and with [n <= 0]
    the result is the value 0 and no rectangle. *)
Theorem riemann_sum (M : MathLib) (expression : string) (a b : float) (n : Z) :
  let dx := ((b - a) / numberOfZ n)%float in
  let kept := midpointValues M expression a dx (countFrom 0 (Z.to_nat n)) in
  calculateRiemannSum M expression a b n
  = mkRiemann (fold_left (fun s xh => (s + snd xh * dx)%float) kept 0%float)
      (map (rectangleOf dx) kept)
  /\ (List.length (rectangles (calculateRiemannSum M expression a b n))
      <= Z.to_nat n)%nat
  /\ Forall (fun r => width r = dx)
       (rectangles (calculateRiemannSum M expression a b n))
  /\ (n <= 0 -> calculateRiemannSum M expression a b n = mkRiemann 0%float []).
Proof.
  intros dx kept.
  assert (calculateRiemannSum M expression a b n
          = mkRiemann (fold_left (fun s xh => (s + snd xh * dx)%float) kept 0%float)
              (map (rectangleOf dx) kept)) as Hr
    by (unfold calculateRiemannSum; apply riemannLoop_terms).
  split; [exact Hr|]. rewrite Hr. cbn [rectangles]. split; [|split].
  - rewrite length_map. unfold kept, midpointValues.
    rewrite <- (countFrom_length (Z.to_nat n) 0) at 2.
    apply flat_map_short. intros i.
    destruct (evaluate _ _ _); cbn; lia.
  - apply Forall_map. apply Forall_forall. intros xh _. reflexivity.
  - intros Hn. unfold kept. replace (Z.to_nat n) with O by lia. reflexivity.
Qed.

Lemma riemann_sum_witness :
  calculateRiemannSum Sample.math "x*x" 0 1 (-2) = mkRiemann 0%float [].
Proof.
  apply (riemann_sum Sample.math "x*x" 0 1 (-2)). lia.
Defined.

Lemma simpsonLoop_fails (M : MathLib) (expression : string) (a h : float)
  (k : nat) :
  forall (i : Z) (sum : float) (j : Z),
    In j (countFrom i k) ->
    is_ok (evaluate M expression (a + numberOfZ j * h)%float) = false ->
    is_ok (simpsonLoop M expression a h k i sum) = false.
Proof.
  induction k as [|k IH]; intros i sum j Hin Hfail; cbn [countFrom In] in Hin;
    [contradiction|].
  cbn [simpsonLoop].
  destruct (evaluate M expression (a + numberOfZ i * h)%float) as [fx|e] eqn:Hi;
    cbn [bind]; [|reflexivity].
  destruct Hin as [->|Hin]; [rewrite Hi in Hfail; discriminate|].
  eapply IH; eassumption.
Qed.

(** X9.  In Simpson's rule one evaluation that fails spoils the whole
    integral: when the formula has no value at [a], at [b] or at one interior
    point [a + i * h], [1 <= i < n'], [calculateDefiniteIntegral] returns the
    value 0 with the error ['Unable to calculate integral']. *)
Theorem simpson_failure (M : MathLib) (expression : string) (a b : float)
  (n : Z) :
  let n' := evenCount n in
  let h := ((b - a) / numberOfZ n')%float in
  is_ok (evaluate M expression a) = false
  \/ is_ok (evaluate M expression b) = false
  \/ (exists i, 1 <= i < n'
                /\ is_ok (evaluate M expression (a + numberOfZ i * h)%float) = false) ->
  calculateDefiniteIntegral M expression a b n = integralSentinel.
Proof.
  intros n' h Hfail. unfold calculateDefiniteIntegral.
  rewrite Simpson.rem2_is_zero, negb_involutive.
  change (if Z.odd n then n + 1 else n) with n'. fold h.
  destruct (evaluate M expression a) as [fa|ea]; cbn [bind]; [|reflexivity].
  destruct (evaluate M expression b) as [fb|eb]; cbn [bind]; [|reflexivity].
  destruct Hfail as [Ha|[Hb|(i & Hi & Hfail)]]; try discriminate.
  pose proof (simpsonLoop_fails M expression a h (Z.to_nat (n' - 1)) 1
                (fa + fb)%float i) as Hloop.
  destruct (simpsonLoop _ _ _ _ _ _ _) as [sum|e]; cbn [bind]; [|reflexivity].
  discriminate Hloop; [apply countFrom_In; lia|exact Hfail].
Qed.

Lemma simpson_failure_witness :
  calculateDefiniteIntegral Sample.math "1/x" (-1) 1 2 = integralSentinel.
Proof.
  apply (simpson_failure Sample.math "1/x" (-1) 1 2).
  right. right. exists 1. split; [vm_compute; split; [discriminate|reflexivity]|].
  vm_compute. reflexivity.
Defined.

(** X10.  The limit exists exactly when both one-sided limits are there and
    differ by less than [epsilon]; and no limit value is reported exactly
    when both sides are missing, or both are there without agreeing.  In
    particular two sides that disagree are both reported, with no limit. *)
Theorem limit_exists_iff (M : MathLib) (expression : string) (a epsilon : float) :
  let r := calculateLimit M expression a epsilon in
  exists_ r = sidesAgree r epsilon
  /\ isNull (limit r)
     = (isNull (leftLimit r) && isNull (rightLimit r))
       || (bothSides r && negb (sidesAgree r epsilon)).
Proof.
  unfold calculateLimit.
  destruct (fold_left _ steps _) as [leftValues rightValues].
  destruct (lastOrNull leftValues) as [l|], (lastOrNull rightValues) as [r'|];
    cbn zeta;
    try destruct (Math_abs (l - r') <? epsilon)%float eqn:Hclose;
    unfold sidesAgree, bothSides;
    cbn [leftLimit rightLimit limit exists_ isNull andb orb negb];
    rewrite ?Hclose; split; reflexivity.
Qed.

Lemma jointValues_nil (M : MathLib) (expression : string) (a : float)
  (ss : list float) :
  (forall step, In step ss ->
     is_ok (evaluate M expression (a - step)%float) = false
     \/ is_ok (evaluate M expression (a + step)%float) = false) ->
  jointValues M expression a ss = [].
Proof.
  intros Hfail. induction ss as [|step ss IH]; cbn [jointValues flat_map];
    [reflexivity|].
  fold (jointValues M expression a ss).
  rewrite IH by (intros t Ht; apply Hfail; right; exact Ht).
  specialize (Hfail step (or_introl eq_refl)).
  destruct (evaluate M expression (a - step)%float) as [l|el];
    [|reflexivity].
  destruct (evaluate M expression (a + step)%float) as [r|er];
    [|reflexivity].
  destruct Hfail; discriminate.
Qed.

Lemma calculateLimit_without_pairs (M : MathLib) (expression : string)
  (a epsilon : float) :
  jointValues M expression a steps = [] ->
  calculateLimit M expression a epsilon = noLimit.
Proof.
  intros Hnil. unfold calculateLimit.
  rewrite Limit.limitStep_fold, Hnil. reflexivity.
Qed.

(** X11.  A formula that has no value on one side of [a] has no limit at [a]
    at all, not even a one-sided one: when at each of the four steps the
    evaluation fails on the left or on the right, [calculateLimit] returns
    null for both sides and for the limit, and [exists = false]. *)
Theorem limit_needs_both_sides (M : MathLib) (expression : string)
  (a epsilon : float) :
  (forall step, In step steps ->
     is_ok (evaluate M expression (a - step)%float) = false
     \/ is_ok (evaluate M expression (a + step)%float) = false) ->
  calculateLimit M expression a epsilon = noLimit.
Proof.
  intros Hfail. apply calculateLimit_without_pairs.
  apply jointValues_nil. exact Hfail.
Qed.

Lemma limit_needs_both_sides_witness :
  calculateLimit Sample.math "sqrt(x)" 0 default_epsilon = noLimit.
Proof.
  apply (limit_needs_both_sides Sample.math "sqrt(x)" 0 default_epsilon).
  intros step Hstep. left.
  repeat (destruct Hstep as [<-|Hstep]; [vm_compute; reflexivity|]).
  destruct Hstep.
Defined.

(** X12.  The tangent of a formula that has a value [y0] at [x0] has the
    slope that [calculateDerivative] reports, the intercept [y0 - slope * x0]
    and the point [(x0, y0)].  When the derivative is not available (the
    formula has no value at [x0 + 0.0001]) its sentinel 0 is taken for the
    slope: the tangent is then the horizontal line [y = y0] and the normal
    the vertical line [x = x0], of slope Infinity and intercept 0. *)
Theorem lines_without_derivative (M : MathLib) (expression : string)
  (x0 y0 : float) :
  evaluate M expression x0 = Ok y0 ->
  (slope (calculateTangentLine M expression x0)
   = value (calculateDerivative M expression x0 default_h)
   /\ yIntercept (calculateTangentLine M expression x0)
      = (y0 - value (calculateDerivative M expression x0 default_h) * x0)%float
   /\ point_ (calculateTangentLine M expression x0) = (x0, y0))
  /\ (is_ok (evaluate M expression (x0 + default_h)%float) = false ->
      calculateTangentLine M expression x0
      = mkTangent 0%float (y0 - 0 * x0)%float ("y = " ++ toFixed2 M y0) (x0, y0)
      /\ calculateNormalLine M expression x0
         = mkNormal PrimFloat.infinity 0%float ("x = " ++ toFixed2 M x0)).
Proof.
  intros Hy0. unfold calculateNormalLine, calculateTangentLine.
  rewrite Hy0. cbn [slope yIntercept point_].
  split; [repeat split|].
  intros Hfail.
  assert (calculateDerivative M expression x0 default_h = derivativeSentinel)
    as ->.
  { unfold calculateDerivative.
    destruct (evaluate M expression (x0 + default_h)%float); [discriminate|].
    reflexivity. }
  cbn [value derivativeSentinel].
  change (0 =? 0)%float with true. cbv iota.
  change (negb (isFinite PrimFloat.infinity)) with true. cbv iota.
  split; reflexivity.
Qed.

Lemma lines_without_derivative_witness :
  calculateTangentLine Sample.math "1+sqrt(-x)" 0
  = mkTangent 0%float (1 - 0 * 0)%float ("y = " ++ toFixed2 Sample.math 1) (0%float, 1%float)
  /\ calculateNormalLine Sample.math "1+sqrt(-x)" 0
     = mkNormal PrimFloat.infinity 0%float ("x = " ++ toFixed2 Sample.math 0).
Proof.
  apply (proj2 (lines_without_derivative Sample.math "1+sqrt(-x)" 0 1
                  ltac:(vm_compute; reflexivity))).
  vm_compute. reflexivity.
Defined.

(** X13.  A formula that the lexer rejects has no value at any [x], with the
    lexer's error as the cause, and every operation of the engine gives its
    empty result: no sample, no derivative point, the two sentinels with
    their errors, the Riemann sum 0 without rectangles, no limit, and the
    two sentinel lines. *)
Theorem rejected_formula (M : MathLib) (expression : string) cause
  (x a b epsilon : float) (n : Z) :
  tokenize expression = Err cause ->
  evaluate M expression x = Err (InvalidExpression expression cause)
  /\ isValidExpression M expression = false
  /\ generatePoints M expression a b n = []
  /\ calculateDerivativePoints M expression a b n = []
  /\ calculateDerivative M expression x default_h = derivativeSentinel
  /\ calculateDefiniteIntegral M expression a b n = integralSentinel
  /\ calculateRiemannSum M expression a b n = mkRiemann 0%float []
  /\ calculateLimit M expression x epsilon = noLimit
  /\ calculateTangentLine M expression x = tangentSentinel x
  /\ calculateNormalLine M expression x = normalSentinel.
Proof.
  intros Htok.
  assert (forall t, evaluate M expression t
                    = Err (InvalidExpression expression cause)) as Heval
    by (intros t; unfold evaluate; rewrite Htok; reflexivity).
  split; [apply Heval|].
  split; [unfold isValidExpression; rewrite Heval; reflexivity|].
  split.
  { rewrite Sampler.generatePoints_flat_map. apply flat_map_nil.
    intros i. unfold sampleAt. rewrite Heval. reflexivity. }
  split.
  { unfold calculateDerivativePoints. rewrite derivativePointsLoop_flat_map.
    apply flat_map_nil. intros i. unfold derivativeSampleAt, calculateDerivative.
    rewrite Heval. reflexivity. }
  split; [unfold calculateDerivative; rewrite Heval; reflexivity|].
  split; [unfold calculateDefiniteIntegral; rewrite Heval; reflexivity|].
  split.
  { unfold calculateRiemannSum. rewrite riemannLoop_terms.
    unfold midpointValues. rewrite flat_map_nil; [reflexivity|].
    intros i. rewrite Heval. reflexivity. }
  split.
  { apply calculateLimit_without_pairs. apply jointValues_nil.
    intros step _. left. rewrite Heval. reflexivity. }
  split.
  - unfold calculateTangentLine. rewrite Heval. reflexivity.
  - unfold calculateNormalLine. rewrite Heval. reflexivity.
Qed.

Lemma rejected_formula_witness :
  generatePoints Sample.math "2 # x" (-1) 1 10 = []
  /\ calculateLimit Sample.math "2 # x" 0 default_epsilon = noLimit.
Proof.
  pose proof (rejected_formula Sample.math "2 # x" (UnexpectedCharacter "#" 1)
                0 (-1) 1 default_epsilon 10 ltac:(vm_compute; reflexivity)) as H.
  split; apply H.
Defined.

(** X18.  The samples lie on the graph: every point that [generatePoints]
    returns is one of the sampling points [x_i], [0 <= i <= steps], paired
    with the finite value [evaluate] has there; and every point that
    [calculateDerivativePoints] returns is one of them paired with the finite
    estimate [calculateDerivative] gives there without error. *)
Theorem samples_on_graph (M : MathLib) (expression : string)
  (xMin xMax : float) (steps : Z) (x y : float) :
  let stepSize := ((xMax - xMin) / numberOfZ steps)%float in
  (In (x, y) (generatePoints M expression xMin xMax steps) ->
   evaluate M expression x = Ok y
   /\ isFinite y = true
   /\ exists i, 0 <= i <= steps /\ x = (xMin + numberOfZ i * stepSize)%float)
  /\ (In (x, y) (calculateDerivativePoints M expression xMin xMax steps) ->
      calculateDerivative M expression x default_h = mkResult y None
      /\ isFinite y = true
      /\ exists i, 0 <= i <= steps /\ x = (xMin + numberOfZ i * stepSize)%float).
Proof.
  intros stepSize. split.
  - rewrite Sampler.generatePoints_flat_map. fold stepSize. intros Hin.
    apply in_flat_map in Hin as (i & Hi & Hin).
    apply countFrom_In in Hi. unfold sampleAt in Hin.
    destruct (evaluate M expression (xMin + numberOfZ i * stepSize)%float)
      as [v|e] eqn:Heval; [|contradiction].
    destruct (isFinite v) eqn:Hfin; [|contradiction].
    destruct Hin as [Heq|[]]. injection Heq as <- <-.
    split; [exact Heval|]. split; [exact Hfin|]. exists i. split; [lia|reflexivity].
  - unfold calculateDerivativePoints. rewrite derivativePointsLoop_flat_map.
    cbn [app]. fold stepSize. intros Hin.
    apply in_flat_map in Hin as (i & Hi & Hin).
    apply countFrom_In in Hi. unfold derivativeSampleAt in Hin.
    destruct (calculateDerivative M expression
                (xMin + numberOfZ i * stepSize)%float default_h)
      as [v [msg|]] eqn:Hd; cbn [error value] in Hin; [contradiction|].
    destruct (isFinite v) eqn:Hfin; [|contradiction].
    destruct Hin as [Heq|[]]. injection Heq as <- <-.
    split; [exact Hd|]. split; [exact Hfin|]. exists i. split; [lia|reflexivity].
Qed.

Lemma samples_on_graph_witness :
  evaluate Sample.math "1/x" 1 = Ok 1%float /\ isFinite 1 = true.
Proof.
  destruct (proj1 (samples_on_graph Sample.math "1/x" (-1) 1 10 1 1)) as (H1 & H2 & _).
  - vm_compute. repeat (first [left; reflexivity | right]).
  - split; [exact H1|exact H2].
Defined.

(** A magnitude is not below a tolerance that is not positive. *)
Lemma abs_not_below (y epsilon : float) :
  (0 <? epsilon)%float = false -> (Math_abs y <? epsilon)%float = false.
Proof.
  unfold Math_abs. rewrite !FloatAxioms.ltb_spec, FloatAxioms.abs_spec.
  change (Prim2SF 0) with (S754_zero false).
  destruct (Prim2SF y) as [sy|sy| |sy my ey],
           (Prim2SF epsilon) as [se|se| |se me ee];
    try destruct sy; try destruct se; cbn; intros H;
    first [reflexivity | discriminate H].
Qed.

(** X19.  With a tolerance that is not positive (zero, negative or NaN) no
    limit ever exists: [calculateLimit] returns [exists = false] for every
    formula and point, and reports a limit value only when a single side is
    there. *)
Theorem limit_needs_positive_epsilon (M : MathLib) (expression : string)
  (a epsilon : float) :
  (0 <? epsilon)%float = false ->
  exists_ (calculateLimit M expression a epsilon) = false
  /\ isNull (limit (calculateLimit M expression a epsilon))
     = negb (xorb (isNull (leftLimit (calculateLimit M expression a epsilon)))
               (isNull (rightLimit (calculateLimit M expression a epsilon)))).
Proof.
  intros Heps. unfold calculateLimit.
  destruct (fold_left _ steps _) as [leftValues rightValues].
  destruct (lastOrNull leftValues) as [l|], (lastOrNull rightValues) as [r'|];
    cbn zeta; try rewrite (abs_not_below (l - r') epsilon Heps);
    split; reflexivity.
Qed.

Lemma limit_needs_positive_epsilon_witness :
  exists_ (calculateLimit Sample.math "x*x" 0 0) = false.
Proof.
  apply (limit_needs_positive_epsilon Sample.math "x*x" 0 0). reflexivity.
Defined.

Lemma min_not_above (h : float) : (0 <? Math_min 0 h)%float = false.
Proof.
  unfold Math_min.
  destruct (PrimFloat.is_nan 0 || PrimFloat.is_nan h); [reflexivity|].
  destruct (0 <? h)%float eqn:Hpos; [reflexivity|].
  destruct (h <? 0)%float; [exact Hpos|].
  change (PrimFloat.get_sign 0) with false. exact Hpos.
Qed.

Lemma abs_not_negative (h : float) : (Math_abs h <? 0)%float = false.
Proof.
  apply abs_not_below. reflexivity.
Qed.

(** X20.  The rectangles of the midpoint rule hang from the axis or stand on
    it: no rectangle is anchored above 0, and none has a negative height
    (its anchor is [min(0, f)] and its height [abs(f)] for the value [f] at
    the midpoint of its subinterval, whatever that value is). *)
Theorem rectangles_signs (M : MathLib) (expression : string) (a b : float)
  (n : Z) :
  Forall (fun r => (0 <? rect_y r)%float = false
                   /\ (height r <? 0)%float = false)
    (rectangles (calculateRiemannSum M expression a b n)).
Proof.
  unfold calculateRiemannSum. rewrite riemannLoop_terms. cbn [rectangles app].
  apply Forall_map. apply Forall_forall. intros xh _.
  unfold rectangleOf. cbn [rect_y height].
  split; [apply min_not_above|apply abs_not_negative].
Qed.

End CalculusFacts.

(** * The grammar: associativity and precedence *)

Module Grammar.

Import ExpressionParser MathParser Spec.

Lemma evaluate_streamValue (M : MathLib) (expression : string)
  (tokens : list token) (x : float) :
  Lexer.tokenize expression = Ok tokens ->
  TokenSpec.outcome (evaluate M expression x) = streamValue M tokens x.
Proof.
  intros Htok. unfold evaluate, streamValue. rewrite Htok. cbn [bind].
  destruct (parseExpression M tokens x (budget tokens) 0) as [[v c]|e];
    cbn [bind]; [|reflexivity].
  destruct (negb (isAtEnd tokens c)); reflexivity.
Qed.

(** One iteration of the loop of [parseMultiplication] on a [/]. *)
Lemma multiplicationLoop_over (M : MathLib) (tokens : list token) (x : float)
  (fuel : nat) (expr : float) (current : nat) (divisor : float) (current' : nat) :
  type (tokenAt tokens current) = OPERATOR ->
  value (tokenAt tokens current) = "/" ->
  parseExponentiation M tokens x fuel (S current) = Ok (divisor, current') ->
  multiplicationLoop M tokens x (S fuel) expr current
  = (q <- quotient expr divisor ;; multiplicationLoop M tokens x fuel q current').
Proof.
  intros Hty Hval Hparse.
  rewrite ParserFacts.multiplicationLoop_S.
  assert (match_ tokens OPERATOR current = (true, S current)) as ->.
  { unfold match_, check, advance, isAtEnd, getCurrentToken.
    rewrite Hty. reflexivity. }
  unfold previous. cbn [Nat.sub]. rewrite Nat.sub_0_r, Hval.
  change ((("/" ==? "*") || ("/" ==? "/"))%bool) with true. cbv iota.
  rewrite Hparse. cbn [bind].
  change ("/" ==? "/") with true. change ("/" ==? "*") with false.
  unfold quotient. cbn [andb]. destruct (divisor =? 0)%float; reflexivity.
Qed.

(** One iteration of the same loop on a [*]. *)
Lemma multiplicationLoop_times (M : MathLib) (tokens : list token) (x : float)
  (fuel : nat) (expr : float) (current : nat) (factor : float) (current' : nat) :
  type (tokenAt tokens current) = OPERATOR ->
  value (tokenAt tokens current) = "*" ->
  parseExponentiation M tokens x fuel (S current) = Ok (factor, current') ->
  multiplicationLoop M tokens x (S fuel) expr current
  = multiplicationLoop M tokens x fuel (expr * factor)%float current'.
Proof.
  intros Hty Hval Hparse.
  rewrite ParserFacts.multiplicationLoop_S.
  assert (match_ tokens OPERATOR current = (true, S current)) as ->.
  { unfold match_, check, advance, isAtEnd, getCurrentToken.
    rewrite Hty. reflexivity. }
  unfold previous. cbn [Nat.sub]. rewrite Nat.sub_0_r, Hval.
  change ((("*" ==? "*") || ("*" ==? "/"))%bool) with true. cbv iota.
  rewrite Hparse. reflexivity.
Qed.

Local Ltac open_stream :=
  unfold streamValue;
  match goal with
  | |- context [budget ?t] =>
      let n := eval vm_compute in (budget t) in change (budget t) with n
  end;
  rewrite ParserFacts.parseExpression_S, ParserFacts.parseAddition_S,
    ParserFacts.parseMultiplication_S.

Local Ltac divide expr current divisor current' :=
  match goal with
  | |- context [multiplicationLoop ?M ?t ?x (S ?fuel) expr current] =>
      rewrite (multiplicationLoop_over M t x fuel expr current divisor current')
        by reflexivity
  end;
  unfold quotient at 1;
  match goal with
  | |- context [quotient expr divisor] => unfold quotient at 1
  | _ => idtac
  end;
  destruct (divisor =? 0)%float; cbn [bind]; [reflexivity|].

(** X14.  Addition, subtraction, multiplication and division associate to
    the left: for any three operands [a - b - c] is [(a - b) - c], and
    likewise for every pair of operators of the same level; a division by an
    operand equal to zero fails, and what stands after it is not looked at. *)
Theorem left_associative (M : MathLib) (x : float) (a b c : operand) :
  let va := operandValue x a in
  let vb := operandValue x b in
  let vc := operandValue x c in
  streamValue M (infix3 a "-" b "-" c) x = Ok (va - vb - vc)%float
  /\ streamValue M (infix3 a "-" b "+" c) x = Ok (va - vb + vc)%float
  /\ streamValue M (infix3 a "+" b "-" c) x = Ok (va + vb - vc)%float
  /\ streamValue M (infix3 a "+" b "+" c) x = Ok (va + vb + vc)%float
  /\ streamValue M (infix3 a "*" b "*" c) x = Ok (va * vb * vc)%float
  /\ streamValue M (infix3 a "/" b "*" c) x
     = (q <- quotient va vb ;; Ok (q * vc)%float)
  /\ streamValue M (infix3 a "*" b "/" c) x = quotient (va * vb)%float vc
  /\ streamValue M (infix3 a "/" b "/" c) x
     = (q <- quotient va vb ;; quotient q vc).
Proof.
  intros va vb vc.
  destruct a as [da| | |], b as [db| | |], c as [dc| | |];
    (split; [reflexivity|]); (split; [reflexivity|]);
    (split; [reflexivity|]); (split; [reflexivity|]);
    (split; [reflexivity|]);
    ((split; [|split]); open_stream;
    match goal with
    | |- context [parseExponentiation ?M ?t ?x ?f 0] =>
        change (parseExponentiation M t x f 0) with (Ok (va, 1))
    end; cbn [bind];
    [ divide va 1 vb 3; reflexivity
    | match goal with
      | |- context [multiplicationLoop ?M ?t ?x (S ?f) va 1] =>
          rewrite (multiplicationLoop_times M t x f va 1 vb 3) by reflexivity
      end;
      divide (va * vb)%float 3 vc 5; reflexivity
    | divide va 1 vb 3; divide (va / vb)%float 3 vc 5; reflexivity ]).
Qed.

(** X15.  Precedence: [^] binds tighter than [*], and [*] tighter than [+]
    and [-]; a sign binds tighter than any of them, [^] included, so that
    [-a^b] is [(-a)^b] and [-x^2] is the square of [-x]; a sign may follow a
    binary operator, while another binary operator there is an error. *)
Theorem precedence (M : MathLib) (x : float) (a b c : operand) :
  let va := operandValue x a in
  let vb := operandValue x b in
  let vc := operandValue x c in
  streamValue M (infix3 a "+" b "*" c) x = Ok (va + vb * vc)%float
  /\ streamValue M (infix3 a "*" b "+" c) x = Ok (va * vb + vc)%float
  /\ streamValue M (infix3 a "-" b "*" c) x = Ok (va - vb * vc)%float
  /\ streamValue M (infix3 a "*" b "^" c) x = Ok (va * Math_pow M vb vc)%float
  /\ streamValue M (infix3 a "^" b "*" c) x = Ok (Math_pow M va vb * vc)%float
  /\ streamValue M (infix3 a "+" b "^" c) x = Ok (va + Math_pow M vb vc)%float
  /\ streamValue M (infix3 a "^" b "-" c) x = Ok (Math_pow M va vb - vc)%float
  /\ streamValue M (prefixed "-" a "^" b) x = Ok (Math_pow M (- va) vb)
  /\ streamValue M (prefixed "-" a "*" b) x = Ok (- va * vb)%float
  /\ streamValue M (prefixed "-" a "+" b) x = Ok (- va + vb)%float
  /\ streamValue M (prefixed "+" a "-" b) x = Ok (va - vb)%float
  /\ streamValue M (signedRight a "^" "-" b) x = Ok (Math_pow M va (- vb))
  /\ streamValue M (signedRight a "*" "-" b) x = Ok (va * - vb)%float
  /\ streamValue M (signedRight a "-" "-" b) x = Ok (va - - vb)%float
  /\ streamValue M (signedRight a "+" "*" b) x = Err (UnexpectedUnaryOperator "*")
  /\ TokenSpec.outcome (evaluate M "-x^2" x) = Ok (Math_pow M (- x) 2)
  /\ TokenSpec.outcome (evaluate M "2+3*x" x) = Ok (2 + 3 * x)%float.
Proof.
  intros va vb vc.
  destruct a as [da| | |], b as [db| | |], c as [dc| | |];
    repeat (split; [reflexivity|]); vm_compute; reflexivity.
Qed.

End Grammar.

(** * The presets *)

Module Presets.

Import Lexer MathParser.

(** X16.  Of the eight presets, seven are valid expressions whatever the
    [Math] library; the Exponential one, [Math.exp(x)], is not: the lexer
    rejects [Math] as an unknown identifier, so loading that preset leaves
    the engine without a formula it can evaluate. *)
Theorem presets_validity (M : MathLib) :
  map (fun p => (name p, isValidExpression M (expression p))) getPresetFunctions
  = [("Quadratic", true); ("Sine", true); ("Cosine", true);
     ("Exponential", false); ("Natural Log", true); ("Cubic", true);
     ("Reciprocal", true); ("Square Root", true)]
  /\ tokenize "Math.exp(x)" = Err (UnknownIdentifier "Math" 0)
  /\ isValidExpression M "exp(x)" = true.
Proof.
  repeat split; vm_compute; reflexivity.
Qed.

End Presets.
